(** * ARM template tooling: variable definitions, cached values and hover text

    A shallow embedding of [src/VariableDefinition.ts] (with the
    [CachedValue] class that accompanies it) and of [src/Hover.ts].

    JavaScript objects have an identity, and two of the properties
    below speak of "the same reference".  Every JSON node therefore
    carries the identity it received when it was constructed, and [new]
    draws a fresh identity from an allocator that is threaded through
    the code that constructs nodes. *)

From Stdlib Require Import String Ascii List Bool Arith Lia.
Import ListNotations.
Open Scope string_scope.

(** ** Strings *)

Module JsString.

(** [String.prototype.toLowerCase], on text made of ASCII characters:
    the letters [A]-[Z] are folded, every other character is kept. *)
Definition lowerChar (c : ascii) : ascii :=
  let n := nat_of_ascii c in
  if ((65 <=? n) && (n <=? 90))%nat then ascii_of_nat (n + 32) else c.

Fixpoint toLowerCase (s : string) : string :=
  match s with
  | EmptyString => EmptyString
  | String c rest => String (lowerChar c) (toLowerCase rest)
  end.

(** Truthiness of a string: the empty string is the falsy one. *)
Definition truthy (s : string) : bool :=
  match s with
  | EmptyString => false
  | String _ _ => true
  end.

(** [Array.prototype.join]. *)
Fixpoint join (sep : string) (parts : list string) : string :=
  match parts with
  | [] => ""
  | [p] => p
  | p :: rest => p ++ sep ++ join sep rest
  end.

End JsString.

(** ** Spans *)

Module Language.

(** Modelled from the spec: [Language.Span], which is declared in
    [./Language]; it is a range of character offsets in the document, given
    by its start and its length. *)
Record Span : Type := mkSpan { startIndex : nat; length : nat }.

End Language.

(** ** The JSON parse tree *)

Module Json.

Import Language.

(** The identity of a node object. *)
Definition Ref := nat.

(** Modelled from the spec: the string node of [./JSON], with its span
    and its text without the quotes. *)
Record StringValue : Type := newStringValue
  { stringRef : Ref; stringSpan : Span; unquotedValue : string }.

(** Modelled from the spec: the node classes of [./JSON].  Each node
    carries its span; an object owns its properties in document order, an
    array its elements, and a property a name token and a value, which is
    [null] where the document gives none. *)
Inductive Value : Type :=
| OfObject (o : ObjectValue)
| OfArray (a : ArrayValue)
| OfString (s : StringValue)
| OfNumber (r : Ref) (sp : Span) (text : string)
| OfBoolean (r : Ref) (sp : Span) (b : bool)
| OfNull (r : Ref) (sp : Span)
with ObjectValue : Type :=
| newObjectValue (r : Ref) (sp : Span) (members : list Property)
with ArrayValue : Type :=
| newArrayValue (r : Ref) (sp : Span) (elems : list Value)
with Property : Type :=
| newProperty (r : Ref) (sp : Span) (name : StringValue) (v : option Value).

Definition objectRef (o : ObjectValue) : Ref :=
  match o with newObjectValue r _ _ => r end.
Definition objectSpan (o : ObjectValue) : Span :=
  match o with newObjectValue _ sp _ => sp end.
Definition properties (o : ObjectValue) : list Property :=
  match o with newObjectValue _ _ ps => ps end.

Definition arrayRef (a : ArrayValue) : Ref :=
  match a with newArrayValue r _ _ => r end.
Definition arraySpan (a : ArrayValue) : Span :=
  match a with newArrayValue _ sp _ => sp end.
Definition elements (a : ArrayValue) : list Value :=
  match a with newArrayValue _ _ es => es end.

Definition propertyRef (p : Property) : Ref :=
  match p with newProperty r _ _ _ => r end.
Definition propertySpan (p : Property) : Span :=
  match p with newProperty _ sp _ _ => sp end.
Definition nameValue (p : Property) : StringValue :=
  match p with newProperty _ _ n _ => n end.
Definition value (p : Property) : option Value :=
  match p with newProperty _ _ _ v => v end.

(** [Value.span] *)
Definition span (v : Value) : Span :=
  match v with
  | OfObject o => objectSpan o
  | OfArray a => arraySpan a
  | OfString s => stringSpan s
  | OfNumber _ sp _ | OfBoolean _ sp _ | OfNull _ sp => sp
  end.

(** Modelled from the spec: the narrowing helpers of [./JSON]
    ("helper predicates to narrow a generic value to object/array/string
    kinds"); each takes a value or [null] and answers [null] unless the
    value is of the kind asked for. *)
Definition asObjectValue (v : option Value) : option ObjectValue :=
  match v with Some (OfObject o) => Some o | _ => None end.
Definition asArrayValue (v : option Value) : option ArrayValue :=
  match v with Some (OfArray a) => Some a | _ => None end.
Definition asStringValue (v : option Value) : option StringValue :=
  match v with Some (OfString s) => Some s | _ => None end.

(** Two property names that differ by letter case only. *)
Definition sameKey (a b : string) : bool :=
  String.eqb (JsString.toLowerCase a) (JsString.toLowerCase b).

(** Modelled from the spec: [ObjectValue.getPropertyValue] of [./JSON]
    ("case-insensitive property-name match against the well-known
    key").  It answers the value of the property of that name, [null]
    when there is none.  Where several properties of an object share a
    name the spec does not say which one is meant; the one written last
    is taken here, and no theorem below depends on that choice. *)
Definition getProperty (o : ObjectValue) (propertyName : string)
  : option Property :=
  find (fun p => sameKey (unquotedValue (nameValue p)) propertyName)
       (rev (properties o)).

Definition getPropertyValue (o : ObjectValue) (propertyName : string)
  : option Value :=
  match getProperty o propertyName with
  | Some p => value p
  | None => None
  end.

(** Every span met in a value: its own and those of all the nodes
    below it. *)
Fixpoint spans (v : Value) : list Span :=
  match v with
  | OfObject (newObjectValue _ sp ps) =>
      sp :: flat_map
              (fun p =>
                 match p with
                 | newProperty _ psp n pv =>
                     psp :: stringSpan n ::
                       match pv with Some w => spans w | None => [] end
                 end) ps
  | OfArray (newArrayValue _ sp es) => sp :: flat_map spans es
  | OfString s => [stringSpan s]
  | OfNumber _ sp _ | OfBoolean _ sp _ | OfNull _ sp => [sp]
  end.

Definition propertySpans (p : Property) : list Span :=
  propertySpan p :: stringSpan (nameValue p) ::
    match value p with Some w => spans w | None => [] end.

End Json.

(** ** Effects *)

(** A call either returns a value or throws. *)
Definition Exn := string.

Inductive Outcome (T : Type) : Type :=
| Returned (v : T)
| Thrown (e : Exn).
Arguments Returned {T} v.
Arguments Thrown {T} e.

(** A function of no argument, [() => T], run in a world [W] that it may
    change, also when it throws. *)
Definition Computation (W T : Type) : Type := W -> Outcome T * W.

(** Code that constructs JSON nodes: the state is the allocator, the next
    identity that [new] hands out. *)
Module Alloc.

Definition Heap := Json.Ref.
Definition M (A : Type) : Type := Heap -> A * Heap.

Definition ret {A} (a : A) : M A := fun h => (a, h).
Definition bind {A B} (m : M A) (k : A -> M B) : M B :=
  fun h => let (a, h') := m h in k a h'.

(** The identity of the object that [new] creates. *)
Definition fresh : M Json.Ref := fun h => (h, S h).

(** A [for ... of] loop whose body updates one local variable. *)
Fixpoint forOf {A B} (body : A -> B -> M A) (xs : list B) (acc : A) : M A :=
  match xs with
  | [] => ret acc
  | x :: rest => bind (body acc x) (forOf body rest)
  end.

(** A closure of this code, as a function that happens not to throw. *)
Definition closure {A} (m : M A) : Computation Heap A :=
  fun h => let (a, h') := m h in (Returned a, h').

End Alloc.

Notation "'let*' x ':=' m 'in' k" := (Alloc.bind m (fun x => k))
  (at level 10, x name, m at level 100, k at level 200).

(** ** [CachedValue] *)

Module Cached.

(** [_value] is [undefined] until it is assigned. *)
Record CachedValue (T : Type) : Type := mkCachedValue
  { _isCached : bool; _value : option T }.
Arguments mkCachedValue {T} _ _.
Arguments _isCached {T} _.
Arguments _value {T} _.

(** [new CachedValue<T>()]: neither field is set. *)
Definition create (T : Type) : CachedValue T :=
  {| _isCached := false; _value := None |}.

(** [getOrCacheValue]: the result is what the call returns or throws, the
    cell and the world as the call leaves them.  A throw of
    [calculateValue] leaves the method before either assignment. *)
Definition getOrCacheValue {W T} (this : CachedValue T)
    (calculateValue : Computation W T) (w : W)
  : Outcome (option T) * CachedValue T * W :=
  if negb (_isCached this) then
    match calculateValue w with
    | (Returned v, w') =>
        let this1 := {| _isCached := _isCached this; _value := Some v |} in
        let this2 := {| _isCached := true; _value := _value this1 |} in
        (Returned (_value this2), this2, w')
    | (Thrown e, w') => (Thrown e, this, w')
    end
  else (Returned (_value this), this, w).

(** The compute function with a counter in front of its world: every
    invocation is counted. *)
Definition counted {W T} (c : Computation W T) : Computation (nat * W) T :=
  fun nw => let (r, w') := c (snd nw) in (r, (S (fst nw), w')).

(** A series of calls on one cell, each with its own compute function;
    the outcomes are listed in call order. *)
Fixpoint calls {W T} (cs : list (Computation W T)) (this : CachedValue T)
    (w : W) : list (Outcome (option T)) * CachedValue T * W :=
  match cs with
  | [] => ([], this, w)
  | c :: rest =>
      let '(r, this', w') := getOrCacheValue this c w in
      let '(rs, this'', w'') := calls rest this' w' in
      (r :: rs, this'', w'')
  end.

End Cached.

(** ** Template keys *)

Module templateKeys.

(** Modelled from the spec: the well-known keys of [./constants], which
    the spec names [copy], [name] and [input]. *)
Definition copy : string := "copy".
Definition loopVarName : string := "name".
Definition loopVarInput : string := "input".

End templateKeys.

(** ** Usage information *)

(** Modelled from the spec: [IUsageInfo], "a record [{usage: string,
    friendlyType: string, description?: string}] describing how to
    display/summarize the symbol". *)
Record IUsageInfo : Type := mkUsageInfo
  { usage : string; friendlyType : string; description : option string }.

(** ** Variable definitions *)

Module TopLevelVariableDefinition.

Import Json.

Record t : Type := mk
  { _nameValue : Cached.CachedValue (option Value);
    _property : Property }.

(** The constructor; the property is there by its type, as the
    assertion asks. *)
Definition create (property : Property) : t :=
  {| _nameValue := Cached.create (option Value); _property := property |}.

(** The filter of the retained members. *)
Definition notCopy (copyKeyLC : string) (prop : Property) : bool :=
  negb (String.eqb (JsString.toLowerCase (unquotedValue (nameValue prop)))
                   copyKeyLC).

(** The body of the loop over the elements of the COPY block;
    [modifiedMembers.push] appends. *)
Definition loopBody (modifiedMembers : list Property) (loopVar : Value)
  : Alloc.M (list Property) :=
  match asObjectValue (Some loopVar) with
  | Some loopVarObject =>
      let name :=
        asStringValue (getPropertyValue loopVarObject templateKeys.loopVarName) in
      let input := getPropertyValue loopVarObject templateKeys.loopVarInput in
      match name, input with
      | Some name, Some input =>
          let* r := Alloc.fresh in
          let array := newArrayValue r (span input) [input] in
          let* r' := Alloc.fresh in
          let loopValueProperty :=
            newProperty r' (span input) name (Some (OfArray array)) in
          Alloc.ret (modifiedMembers ++ [loopValueProperty])%list
      | _, _ => Alloc.ret modifiedMembers
      end
  | None => Alloc.ret modifiedMembers
  end.

(** The function handed to the cache by the [value] getter. *)
Definition calculateValue (this : t) : Alloc.M (option Value) :=
  let value := Json.value (_property this) in
  match asObjectValue value with
  | Some valueObject =>
      match asArrayValue (getPropertyValue valueObject templateKeys.copy) with
      | Some copyPropertyArray =>
          let copyKeyLC := JsString.toLowerCase templateKeys.copy in
          let modifiedMembers :=
            filter (notCopy copyKeyLC) (properties valueObject) in
          let* modifiedMembers :=
            Alloc.forOf loopBody (elements copyPropertyArray) modifiedMembers in
          let* r := Alloc.fresh in
          let modifiedObjectValue :=
            newObjectValue r (objectSpan valueObject) modifiedMembers in
          Alloc.ret (Some (OfObject modifiedObjectValue))
      | None => Alloc.ret value
      end
  | None => Alloc.ret value
  end.

(** The [value] getter: the outcome, the definition with its cache as
    the call leaves it, and the allocator. *)
Definition value (this : t) (h : Alloc.Heap)
  : Outcome (option (option Value)) * t * Alloc.Heap :=
  let '(r, cell, h') :=
    Cached.getOrCacheValue (_nameValue this)
      (Alloc.closure (calculateValue this)) h in
  (r, {| _nameValue := cell; _property := _property this |}, h').

(** [n] reads of [value], one after the other. *)
Fixpoint reads (n : nat) (this : t) (h : Alloc.Heap)
  : list (Outcome (option (option Value))) * t * Alloc.Heap :=
  match n with
  | 0 => ([], this, h)
  | S m =>
      let '(r, this', h') := value this h in
      let '(rs, this'', h'') := reads m this' h' in
      (r :: rs, this'', h'')
  end.

(** [nameValue] and [span] *)
Definition nameValue (this : t) : StringValue := Json.nameValue (_property this).
Definition span (this : t) : Language.Span := propertySpan (_property this).

(** [usageInfo] *)
Definition usageInfo (this : t) : IUsageInfo :=
  {| usage := unquotedValue (nameValue this);
     friendlyType := "variable";
     description := None |}.

End TopLevelVariableDefinition.

Module TopLevelCopyBlockVariableDefinition.

Import Json.

Record t : Type := mk
  { _copyVariableObject : ObjectValue;
    nameValue : StringValue;
    value : option Value }.

(** The constructor: the value is an array of the one element [input],
    or [null] when there is no [input]. *)
Definition create (copyVariableObject : ObjectValue) (nameValue : StringValue)
    (input : option Value) : Alloc.M t :=
  let* value :=
    match input with
    | Some input =>
        let* r := Alloc.fresh in
        Alloc.ret (Some (OfArray (newArrayValue r (Json.span input) [input])))
    | None => Alloc.ret None
    end in
  Alloc.ret {| _copyVariableObject := copyVariableObject;
               nameValue := nameValue;
               value := value |}.

(** [createIfValid]; [undefined] is [None]. *)
Definition createIfValid (copyVariableObject : Value) : Alloc.M (option t) :=
  match asObjectValue (Some copyVariableObject) with
  | Some asObject =>
      match asStringValue (getPropertyValue asObject templateKeys.loopVarName) with
      | Some nameValue =>
          let value := getPropertyValue asObject templateKeys.loopVarInput in
          let* d := create asObject nameValue value in
          Alloc.ret (Some d)
      | None => Alloc.ret None
      end
  | None => Alloc.ret None
  end.

Definition span (this : t) : Language.Span := objectSpan (_copyVariableObject this).

(** [usageInfo] *)
Definition usageInfo (this : t) : IUsageInfo :=
  {| usage := unquotedValue (nameValue this);
     friendlyType := "iteration variable";
     description := None |}.

End TopLevelCopyBlockVariableDefinition.

(** ** User-function definitions *)

(** The definition classes that [Hover.ts] imports. *)

Module UserFunctionParameterDefinition.
(** Modelled from the spec: a parameter of a user function, with its name
    token and, when it declares one, the JSON value of its [type]. *)
Record t : Type := mk { name : Json.StringValue; type : option Json.Value }.
End UserFunctionParameterDefinition.

Module UserFunctionDefinition.
(** Modelled from the spec: a user function, with its name token and its
    parameters in order. *)
Record t : Type := mk
  { name : Json.StringValue;
    parameterDefinitions : list UserFunctionParameterDefinition.t }.
End UserFunctionDefinition.

Module UserFunctionNamespaceDefinition.
(** Modelled from the spec: a namespace, with its name token and its
    member functions in declaration order. *)
Record t : Type := mk
  { namespaceName : Json.StringValue;
    members : list UserFunctionDefinition.t }.
End UserFunctionNamespaceDefinition.

(** ** Hover information *)

Module Hover.

Import Json.

(** The line feed of the template literals. *)
Definition LF : string := String (ascii_of_nat 10) "".

(** A description that is [null], [undefined] or empty is falsy. *)
Definition descriptionLine (description : option string) : string :=
  match description with
  | Some d => if JsString.truthy d then LF ++ d else ""
  | None => ""
  end.

Module FunctionInfo.
Record t : Type := mk
  { _name : string; _usage : string; _description : option string;
    span : Language.Span }.

Definition getHoverText (this : t) : string :=
  "**" ++ _usage this ++ "**" ++ descriptionLine (_description this).

Definition functionName (this : t) : string := _name this.
End FunctionInfo.

Module UserFunctionInfo.
Record t : Type := mk
  { _namespace : UserFunctionNamespaceDefinition.t;
    _function : UserFunctionDefinition.t;
    span : Language.Span }.

Definition getParamUsage (pd : UserFunctionParameterDefinition.t) : string :=
  let paramName := unquotedValue (UserFunctionParameterDefinition.name pd) in
  let paramTypeValue := asStringValue (UserFunctionParameterDefinition.type pd) in
  (* [a && b]: [a] when it is falsy, else [b] *)
  let paramType : option string :=
    match paramTypeValue with
    | Some s => Some (unquotedValue s)
    | None => None
    end in
  let paramTypeLC : option string :=
    match paramType with
    | Some s => if JsString.truthy s then Some (JsString.toLowerCase s) else Some s
    | None => None
    end in
  match paramTypeLC with
  | Some lc => if JsString.truthy lc then paramName ++ " [" ++ lc ++ "]" else paramName
  | None => paramName
  end.

Definition getUsage (namespace : option UserFunctionNamespaceDefinition.t)
    (func : UserFunctionDefinition.t) : string :=
  let ns : string :=
    match namespace with
    | Some n => unquotedValue (UserFunctionNamespaceDefinition.namespaceName n)
    | None => ""
    end in
  let name := unquotedValue (UserFunctionDefinition.name func) in
  let params := UserFunctionDefinition.parameterDefinitions func in
  (if JsString.truthy ns then ns ++ "." else ns)
    ++ name ++ "(" ++ JsString.join ", " (map getParamUsage params) ++ ")".

Definition getHoverText (this : t) : string :=
  let usage := getUsage (Some (_namespace this)) (_function this) in
  "**" ++ usage ++ "** User-defined function".
End UserFunctionInfo.

Module UserNamespaceInfo.
Record t : Type := mk
  { _namespace : UserFunctionNamespaceDefinition.t; span : Language.Span }.

Definition getHoverText (this : t) : string :=
  let ns := unquotedValue
              (UserFunctionNamespaceDefinition.namespaceName (_namespace this)) in
  let methodsUsage :=
    map (fun md => UserFunctionInfo.getUsage None md)
        (UserFunctionNamespaceDefinition.members (_namespace this)) in
  let summary := "**" ++ ns ++ "** User-defined namespace" in
  if (0 <? List.length methodsUsage)%nat then
    summary ++ LF ++ "Members:" ++ LF
      ++ JsString.join LF (map (fun mu => "* " ++ mu) methodsUsage)
  else summary ++ LF ++ "No members".
End UserNamespaceInfo.

Module ParameterReferenceInfo.
Record t : Type := mk
  { _name : string; _description : option string; span : Language.Span }.

Definition getHoverText (this : t) : string :=
  "**" ++ _name this ++ "** (parameter)" ++ descriptionLine (_description this).
End ParameterReferenceInfo.

Module VariableReferenceInfo.
Record t : Type := mk { _name : string; span : Language.Span }.

Definition getHoverText (this : t) : string :=
  "**" ++ _name this ++ "** (variable)".
End VariableReferenceInfo.

End Hover.

(** ** Starting the language server *)

Module startArmLanguageServer.

(** What the callback of [startArmLanguageServer] reads from its host: the
    platform, the [armTools] settings, the flag of the extension
    variables, the file system and the path functions.  The setting
    [languageServer.path] is [None] when its [typeof] is not ['string'];
    [waitForDebugger] says whether the setting is [=== true], and
    [addCompletionDiagnostic] whether the flag is truthy.
    [languageServerFolderName] is a constant that the file uses and does
    not declare. *)
Record Host : Type := mkHost
  { platform : string;
    languageServerPath : option string;
    traceLevel : string;
    waitForDebugger : bool;
    addCompletionDiagnostic : bool;
    existsSync : string -> bool;
    isDirectory : string -> bool;
    asAbsolutePath : string -> string;
    join : string -> string -> string;
    languageServerFolderName : string }.

Definition languageServerName : string := "ARM Language Server".
Definition languageServerDllName : string := "Microsoft.ArmLanguageServer.dll".

Record Executable : Type := mkExecutable
  { command : string; args : list string; shell : bool }.

Record ServerOptions : Type := mkServerOptions
  { run : Executable; debug : Executable }.

(** [let serverExe] *)
Definition serverExe (host : Host) : string :=
  if String.eqb (platform host) "win32" then "dotnet.exe" else "dotnet".

(** [let serverDllPath], from the setting to the end of the [if]: the
    path, or the error thrown.  The first branch is taken when the setting
    is no string or the empty one. *)
Definition serverDllPath (host : Host) : Outcome string :=
  let shipped : Outcome string :=
    let serverFolderPath := asAbsolutePath host (languageServerFolderName host) in
    let serverDllPath := join host serverFolderPath languageServerDllName in
    if negb (existsSync host serverFolderPath)
       || negb (existsSync host serverDllPath)
    then Thrown ("Couldn't find the ARM language server at " ++ serverDllPath
                   ++ ", you may need to reinstall the extension.")
    else Returned (join host serverFolderPath languageServerDllName) in
  match languageServerPath host with
  | None => shipped
  | Some serverDllPath =>
      if String.eqb serverDllPath "" then shipped
      else if negb (existsSync host serverDllPath)
      then Thrown ("Couldn't find the ARM language server at " ++ serverDllPath
                     ++ ".  Please verify your 'armTools.languageServer.path' setting.")
      else if isDirectory host serverDllPath
           then Returned (join host serverDllPath languageServerDllName)
           else Returned serverDllPath
  end.

(** [let commonArgs], with the two conditional [push]es. *)
Definition commonArgs (host : Host) (serverDllPath : string) : list string :=
  let commonArgs := [serverDllPath; "--logLevel"; traceLevel host] in
  let commonArgs :=
    if waitForDebugger host
    then (commonArgs ++ ["--wait-for-debugger"])%list else commonArgs in
  if addCompletionDiagnostic host
  then (commonArgs ++ ["--verbose-diagnostics"])%list else commonArgs.

(** [let serverOptions]: what the callback has built when it turns to the
    language client, or the error it has thrown before. *)
Definition serverOptions (host : Host) : Outcome ServerOptions :=
  let serverExe := serverExe host in
  match serverDllPath host with
  | Returned serverDllPath =>
      let commonArgs := commonArgs host serverDllPath in
      Returned
        {| run := {| command := serverExe; args := commonArgs; shell := true |};
           debug := {| command := serverExe; args := commonArgs; shell := true |} |}
  | Thrown e => Thrown e
  end.

End startArmLanguageServer.

(** ** Sample documents *)

Module Samples.

Import Json.
Import Language.

Definition str (r : Ref) (start len : nat) (text : string) : StringValue :=
  newStringValue r (mkSpan start len) text.

(** The variable value
    [{"copy":[{"name":"disks","count":5,"input":"X"}], "other": 1}],
    with the offsets of that text. *)
Definition inputX : Value := OfString (str 9 43 3 "X").

Definition loopSpec : ObjectValue :=
  newObjectValue 3 (mkSpan 9 38)
    [ newProperty 4 (mkSpan 10 14) (str 5 10 6 "name")
        (Some (OfString (str 6 17 7 "disks")));
      newProperty 7 (mkSpan 25 9) (str 8 25 7 "count")
        (Some (OfNumber 10 (mkSpan 33 1) "5"));
      newProperty 11 (mkSpan 35 11) (str 12 35 7 "input") (Some inputX) ].

Definition copyArray : ArrayValue :=
  newArrayValue 2 (mkSpan 8 40) [OfObject loopSpec].

Definition otherProperty : Property :=
  newProperty 13 (mkSpan 50 10) (str 14 50 7 "other")
    (Some (OfNumber 15 (mkSpan 59 1) "1")).

Definition disksValue : ObjectValue :=
  newObjectValue 0 (mkSpan 0 61)
    [ newProperty 1 (mkSpan 1 47) (str 16 1 6 "copy") (Some (OfArray copyArray));
      otherProperty ].

(** The variable ["v": {...}] that holds it; the next free identity
    is 20. *)
Definition disksVariable : TopLevelVariableDefinition.t :=
  TopLevelVariableDefinition.create
    (newProperty 17 (mkSpan 0 61) (str 18 0 3 "v") (Some (OfObject disksValue))).

(** What the expansion makes of it: [{"other": 1, "disks": ["X"]}]. *)
Definition disksExpanded : Value :=
  OfObject
    (newObjectValue 22 (mkSpan 0 61)
       [ otherProperty;
         newProperty 21 (mkSpan 43 3) (str 6 17 7 "disks")
           (Some (OfArray (newArrayValue 20 (mkSpan 43 3) [inputX]))) ]).

(** Small objects without source text; [obj r ps] has identity [r]. *)
Definition prop (r : Ref) (key : string) (v : Value) : Property :=
  newProperty r (mkSpan 0 0) (str (r + 1) 0 0 key) (Some v).
Definition obj (r : Ref) (ps : list Property) : Value :=
  OfObject (newObjectValue r (mkSpan 0 0) ps).
Definition num (r : Ref) (text : string) : Value := OfNumber r (mkSpan 0 0) text.
Definition text (r : Ref) (s : string) : Value := OfString (str r 0 0 s).

(** [{"name":"x","input":1}], [{"name":"x"}] and [{"input":1}] *)
Definition nameAndInput : Value :=
  obj 0 [prop 1 "name" (text 3 "x"); prop 4 "input" (num 6 "1")].
Definition nameOnly : Value := obj 0 [prop 1 "name" (text 3 "x")].
Definition inputOnly : Value := obj 0 [prop 1 "input" (num 3 "1")].

(** A host without the [languageServer.path] setting, on which only the
    shipped folder and the DLL inside it exist. *)
Definition shippedHost : startArmLanguageServer.Host :=
  startArmLanguageServer.mkHost "linux" None "Warning" true false
    (fun path => String.eqb path "/ext/LanguageServerBin"
                 || String.eqb path
                      "/ext/LanguageServerBin/Microsoft.ArmLanguageServer.dll")
    (fun path => String.eqb path "/ext/LanguageServerBin")
    (fun relative => "/ext/" ++ relative)
    (fun folder file => folder ++ "/" ++ file)
    "LanguageServerBin".

(** The same host with the setting pointing at the folder, and at a file
    that does not exist. *)
Definition folderHost : startArmLanguageServer.Host :=
  startArmLanguageServer.mkHost "win32" (Some "/ext/LanguageServerBin") "Warning"
    false true
    (startArmLanguageServer.existsSync shippedHost)
    (startArmLanguageServer.isDirectory shippedHost)
    (startArmLanguageServer.asAbsolutePath shippedHost)
    (startArmLanguageServer.join shippedHost)
    "LanguageServerBin".
Definition missingHost : startArmLanguageServer.Host :=
  startArmLanguageServer.mkHost "win32" (Some "/nowhere/server.dll") "Warning"
    false true
    (startArmLanguageServer.existsSync shippedHost)
    (startArmLanguageServer.isDirectory shippedHost)
    (startArmLanguageServer.asAbsolutePath shippedHost)
    (startArmLanguageServer.join shippedHost)
    "LanguageServerBin".

(** A variable whose value is the number [1]. *)
Definition numberVariable : TopLevelVariableDefinition.t :=
  TopLevelVariableDefinition.create
    (newProperty 17 (mkSpan 0 6) (str 18 0 3 "v") (Some (OfNumber 15 (mkSpan 5 1) "1"))).

(** Two compute functions over a world that is a number: one returns the
    number it finds, the other throws; both leave a mark in the world. *)
Definition tick : Computation nat nat := fun w => (Returned w, S w).
Definition failing : Computation nat nat := fun w => (Thrown "boom", S w).

(** The function [f] with the parameters [{name:"a"}] and
    [{name:"b", type:"string"}], and the namespace [ns] that declares it. *)
Definition paramA : UserFunctionParameterDefinition.t :=
  UserFunctionParameterDefinition.mk (str 1 0 0 "a") None.
Definition paramB : UserFunctionParameterDefinition.t :=
  UserFunctionParameterDefinition.mk (str 2 0 0 "b") (Some (text 3 "string")).
Definition functionF : UserFunctionDefinition.t :=
  UserFunctionDefinition.mk (str 4 0 0 "f") [paramA; paramB].
Definition namespaceNs : UserFunctionNamespaceDefinition.t :=
  UserFunctionNamespaceDefinition.mk (str 5 0 0 "ns") [functionF].

(** A function whose one parameter declares the type [""], and a
    namespace whose name is [""]. *)
Definition functionEmptyType : UserFunctionDefinition.t :=
  UserFunctionDefinition.mk (str 4 0 0 "f")
    [UserFunctionParameterDefinition.mk (str 1 0 0 "a") (Some (text 3 ""))].
Definition namespaceEmptyName : UserFunctionNamespaceDefinition.t :=
  UserFunctionNamespaceDefinition.mk (str 5 0 0 "") [functionF].

End Samples.

(** ** The properties, in the words of the specification *)

Module Spec.

Import Json.

(** "a JSON object having both a string-valued [name] property and a
    present [input] property (of any JSON value kind)" *)
Definition isLoopSpec (v : Value) : bool :=
  match v with
  | OfObject o =>
      match asStringValue (getPropertyValue o templateKeys.loopVarName),
            getPropertyValue o templateKeys.loopVarInput with
      | Some _, Some _ => true
      | _, _ => false
      end
  | _ => false
  end.

(** A JSON object having a string-valued [name] property. *)
Definition hasStringName (v : Value) : bool :=
  match v with
  | OfObject o =>
      match asStringValue (getPropertyValue o templateKeys.loopVarName) with
      | Some _ => true
      | None => false
      end
  | _ => false
  end.

(** "any property whose name case-insensitively equals [copy]" *)
Definition isCopyKey (p : Property) : bool :=
  sameKey (unquotedValue (nameValue p)) templateKeys.copy.

(** "a new synthesized property named by [name]'s unquoted text, with
    value = a one-element array containing [input] verbatim" *)
Definition ExpandsTo (loopVar : Value) (p : Property) : Prop :=
  exists o name input a,
    loopVar = OfObject o /\
    asStringValue (getPropertyValue o templateKeys.loopVarName) = Some name /\
    getPropertyValue o templateKeys.loopVarInput = Some input /\
    unquotedValue (nameValue p) = unquotedValue name /\
    value p = Some (OfArray a) /\
    elements a = [input].

(** The array and the property that wraps it both carry the span of the
    loop spec's [input] node. *)
Definition CarriesInputSpan (loopVar : Value) (p : Property) : Prop :=
  exists o input a,
    loopVar = OfObject o /\
    getPropertyValue o templateKeys.loopVarInput = Some input /\
    value p = Some (OfArray a) /\
    arraySpan a = span input /\
    propertySpan p = span input.

(** What the loop makes of one loop spec when the allocator stands at
    [r]. *)
Definition SynthesizedAt (r : Ref) (loopVar : Value) (p : Property) : Prop :=
  exists o name input,
    loopVar = OfObject o /\
    asStringValue (getPropertyValue o templateKeys.loopVarName) = Some name /\
    getPropertyValue o templateKeys.loopVarInput = Some input /\
    p = newProperty (S r) (span input) name
          (Some (OfArray (newArrayValue r (span input) [input]))).

(** The synthesized members of a run of the loop that starts with the
    allocator at [r]: one per loop spec, in order, two identities each. *)
Inductive Synthesized : Ref -> list Value -> list Property -> Prop :=
| Synthesized_nil r : Synthesized r [] []
| Synthesized_cons r e es p ps :
    SynthesizedAt r e p ->
    Synthesized (S (S r)) es ps ->
    Synthesized r (e :: es) (p :: ps).

(** The variable value holds a COPY block: it is an object whose [copy]
    property is an array. *)
Definition copyBlock (v : option Value) : option (ObjectValue * ArrayValue) :=
  match asObjectValue v with
  | Some o =>
      match asArrayValue (getPropertyValue o templateKeys.copy) with
      | Some a => Some (o, a)
      | None => None
      end
  | None => None
  end.

Import Hover.

(** "each parameter rendered as bare name, or [name [type]] if the
    parameter declares a string-typed [type] property (type text
    lower-cased for display)" *)
Definition paramUsage (pd : UserFunctionParameterDefinition.t) : string :=
  let name := unquotedValue (UserFunctionParameterDefinition.name pd) in
  match UserFunctionParameterDefinition.type pd with
  | Some (OfString ty) =>
      name ++ " [" ++ JsString.toLowerCase (unquotedValue ty) ++ "]"
  | _ => name
  end.

(** "builds [ns.name(param1 [type1], param2, ...)] - namespace prefix
    omitted if absent; ... joins parameters with [, ]" *)
Definition usage (namespace : option UserFunctionNamespaceDefinition.t)
    (func : UserFunctionDefinition.t) : string :=
  match namespace with
  | Some n =>
      unquotedValue (UserFunctionNamespaceDefinition.namespaceName n) ++ "."
  | None => ""
  end
  ++ unquotedValue (UserFunctionDefinition.name func)
  ++ "("
  ++ JsString.join ", "
       (map paramUsage (UserFunctionDefinition.parameterDefinitions func))
  ++ ")".

(** The same with the two empty texts set apart: a [type] whose text is
    empty is not shown, and a namespace whose name is empty gives no
    prefix. *)
Definition paramUsageNonEmpty (pd : UserFunctionParameterDefinition.t) : string :=
  let name := unquotedValue (UserFunctionParameterDefinition.name pd) in
  match UserFunctionParameterDefinition.type pd with
  | Some (OfString ty) =>
      match unquotedValue ty with
      | EmptyString => name
      | _ => name ++ " [" ++ JsString.toLowerCase (unquotedValue ty) ++ "]"
      end
  | _ => name
  end.

Definition usageNonEmpty (namespace : option UserFunctionNamespaceDefinition.t)
    (func : UserFunctionDefinition.t) : string :=
  match namespace with
  | Some n =>
      match unquotedValue (UserFunctionNamespaceDefinition.namespaceName n) with
      | EmptyString => ""
      | ns => ns ++ "."
      end
  | None => ""
  end
  ++ unquotedValue (UserFunctionDefinition.name func)
  ++ "("
  ++ JsString.join ", "
       (map paramUsageNonEmpty (UserFunctionDefinition.parameterDefinitions func))
  ++ ")".

(** The lines of a namespace's hover text: the summary, then "No
    members", or "Members:" and one bullet per member in declaration
    order. *)
Definition namespaceLines (n : UserFunctionNamespaceDefinition.t) : list string :=
  ("**" ++ unquotedValue (UserFunctionNamespaceDefinition.namespaceName n)
        ++ "** User-defined namespace")
  :: match UserFunctionNamespaceDefinition.members n with
     | [] => ["No members"]
     | ms => "Members:"
             :: map (fun m => "* " ++ UserFunctionInfo.getUsage None m) ms
     end.

End Spec.

(** * Properties *)

(** ** Strings and lookups *)

Lemma join_cons (sep a b : string) (rest : list string) :
  JsString.join sep (a :: b :: rest) = a ++ sep ++ JsString.join sep (b :: rest).
Proof. reflexivity. Qed.

Lemma append_assoc (a b c : string) : (a ++ b) ++ c = a ++ (b ++ c).
Proof. induction a as [|ch a IH]; simpl; [reflexivity | now rewrite IH]. Qed.

Lemma getPropertyValue_In (o : Json.ObjectValue) (key : string) (v : Json.Value) :
  Json.getPropertyValue o key = Some v ->
  exists p, In p (Json.properties o) /\ Json.value p = Some v /\
            Json.sameKey (Json.unquotedValue (Json.nameValue p)) key = true.
Proof.
  unfold Json.getPropertyValue, Json.getProperty.
  destruct (find _ _) as [p|] eqn:Hfind; [|discriminate].
  intros Hv. apply find_some in Hfind as [Hin Hkey].
  exists p. split; [now apply in_rev | now split].
Qed.

Lemma getPropertyValue_only_match (o : Json.ObjectValue) (key : string)
    (p : Json.Property) :
  In p (Json.properties o) ->
  Json.sameKey (Json.unquotedValue (Json.nameValue p)) key = true ->
  (forall q, In q (Json.properties o) ->
             Json.sameKey (Json.unquotedValue (Json.nameValue q)) key = true ->
             q = p) ->
  Json.getPropertyValue o key = Json.value p.
Proof.
  intros Hin Hkey Honly. unfold Json.getPropertyValue, Json.getProperty.
  destruct (find _ _) as [q|] eqn:Hfind.
  - apply find_some in Hfind as [Hq Hqkey].
    apply in_rev in Hq. now rewrite (Honly q Hq Hqkey).
  - apply in_rev in Hin. apply (find_none _ _ Hfind) in Hin.
    cbv beta in Hin. rewrite Hkey in Hin. discriminate Hin.
Qed.

(** ** [createIfValid] *)

Section CreateIfValid.

Import Json.
Import TopLevelCopyBlockVariableDefinition.

Lemma createIfValid_object (o : ObjectValue) (h : Alloc.Heap) :
  fst (createIfValid (OfObject o) h) =
    match asStringValue (getPropertyValue o templateKeys.loopVarName) with
    | Some name =>
        Some {| _copyVariableObject := o;
                nameValue := name;
                value :=
                  match getPropertyValue o templateKeys.loopVarInput with
                  | Some input =>
                      Some (OfArray (newArrayValue h (Json.span input) [input]))
                  | None => None
                  end |}
    | None => None
    end.
Proof.
  unfold createIfValid, create; simpl.
  destruct (asStringValue _) as [name|]; [|reflexivity].
  destruct (getPropertyValue o templateKeys.loopVarInput); reflexivity.
Qed.

(** C1, as the specification states it, fails on [{"name":"x"}]: the
    object has no [input] property, and [createIfValid] still returns a
    definition, whose value is [null]. *)
Lemma createIfValid_name_without_input :
  Spec.isLoopSpec Samples.nameOnly = false /\
  fst (createIfValid Samples.nameOnly 7) =
    Some {| _copyVariableObject := newObjectValue 0 (Language.mkSpan 0 0)
                                     [Samples.prop 1 "name" (Samples.text 3 "x")];
            nameValue := Samples.str 3 0 0 "x";
            value := None |}.
Proof. split; reflexivity. Qed.

(** C1, amended: [createIfValid] returns a definition exactly for the
    JSON objects that have a string-valued [name] property, and
    [undefined] for every other value; an [input] property is not asked
    for.  The definition holds the object, the name token and, as its
    value, a one-element array of the [input] value that carries its
    span, or [null] when the object has no [input].  So there is a
    definition for [{"name":"x","input":1}] and for [{"name":"x"}], none
    for [{"input":1}] and none for a value that is not an object. *)
Theorem createIfValid_iff_string_name :
  (forall (v : Value) (h : Alloc.Heap),
      (exists d, fst (createIfValid v h) = Some d) <-> Spec.hasStringName v = true)
  /\ (forall (v : Value) (h : Alloc.Heap) (d : t),
         fst (createIfValid v h) = Some d ->
         exists name,
           v = OfObject (_copyVariableObject d) /\
           asStringValue
             (getPropertyValue (_copyVariableObject d) templateKeys.loopVarName)
             = Some name /\
           nameValue d = name /\
           value d =
             match getPropertyValue (_copyVariableObject d)
                     templateKeys.loopVarInput with
             | Some input =>
                 Some (OfArray (newArrayValue h (Json.span input) [input]))
             | None => None
             end)
  /\ (exists d, fst (createIfValid Samples.nameAndInput 7) = Some d)
  /\ (exists d, fst (createIfValid Samples.nameOnly 7) = Some d)
  /\ fst (createIfValid Samples.inputOnly 7) = None
  /\ (forall (v : Value) (h : Alloc.Heap),
         asObjectValue (Some v) = None -> fst (createIfValid v h) = None).
Proof.
  repeat split.
  - intros [d Hd]. destruct v as [o| | | | |]; try discriminate Hd.
    rewrite createIfValid_object in Hd. simpl.
    destruct (asStringValue _); [reflexivity | discriminate].
  - intros Hn. destruct v as [o| | | | |]; try discriminate Hn.
    rewrite createIfValid_object. simpl in Hn.
    destruct (asStringValue _); [eauto | discriminate].
  - intros v h d Hd. destruct v as [o| | | | |]; try discriminate Hd.
    rewrite createIfValid_object in Hd.
    destruct (asStringValue _) as [name|] eqn:Hname; [|discriminate].
    injection Hd as <-. simpl. exists name. rewrite Hname. auto.
  - eexists; reflexivity.
  - eexists; reflexivity.
  - intros v h Hv. destruct v; try reflexivity. discriminate Hv.
Qed.

Lemma createIfValid_iff_string_name_witness :
  exists d, fst (createIfValid Samples.nameAndInput 7) = Some d.
Proof.
  apply (proj1 createIfValid_iff_string_name Samples.nameAndInput 7).
  reflexivity.
Defined.

End CreateIfValid.

(** ** [CachedValue] *)

Section CachedValueFacts.

Import Cached.

Context {W T : Type}.

Lemma getOrCacheValue_cached (this : CachedValue T) (c : Computation W T) (w : W) :
  _isCached this = true ->
  getOrCacheValue this c w = (Returned (_value this), this, w).
Proof. intros H. unfold getOrCacheValue. now rewrite H. Qed.

Lemma getOrCacheValue_returns (this : CachedValue T) (c : Computation W T)
    (w w' : W) (v : T) :
  _isCached this = false -> c w = (Returned v, w') ->
  getOrCacheValue this c w = (Returned (Some v), mkCachedValue true (Some v), w').
Proof. intros H Hc. unfold getOrCacheValue. now rewrite H, Hc. Qed.

Lemma getOrCacheValue_throws (this : CachedValue T) (c : Computation W T)
    (w w' : W) (e : Exn) :
  _isCached this = false -> c w = (Thrown e, w') ->
  getOrCacheValue this c w = (Thrown e, this, w').
Proof. intros H Hc. unfold getOrCacheValue. now rewrite H, Hc. Qed.

Lemma calls_cached (cs : list (Computation W T)) (this : CachedValue T) (w : W) :
  _isCached this = true ->
  calls cs this w = (repeat (Returned (_value this)) (List.length cs), this, w).
Proof.
  intros H. induction cs as [|c cs IH]; simpl; [reflexivity|].
  now rewrite (getOrCacheValue_cached _ _ _ H), IH.
Qed.

End CachedValueFacts.

Lemma counted_returns {W T} (c : Computation W T) (w w' : W) (n : nat) (r : Outcome T) :
  c w = (r, w') -> Cached.counted c (n, w) = (r, (S n, w')).
Proof. intros H. unfold Cached.counted. simpl. now rewrite H. Qed.

Lemma calls_first_returns {W T} (c : Computation W T) (rest : list (Computation W T))
    (this : Cached.CachedValue T) (w w' : W) (v : T) :
  Cached._isCached this = false -> c w = (Returned v, w') ->
  Cached.calls (c :: rest) this w =
    (repeat (Returned (Some v)) (S (List.length rest)),
     Cached.mkCachedValue true (Some v), w').
Proof.
  intros H Hc. cbn [Cached.calls].
  rewrite (getOrCacheValue_returns _ _ _ _ _ H Hc).
  now rewrite calls_cached.
Qed.

Section ValueReads.

Import Json.
Import TopLevelVariableDefinition.

Lemma value_unfold (cell : Cached.CachedValue (option Value)) (p : Property)
    (h : Alloc.Heap) :
  value (mk cell p) h =
    let '(r, cell', h') :=
      Cached.getOrCacheValue cell (Alloc.closure (calculateValue (create p))) h in
    (r, mk cell' p, h').
Proof. reflexivity. Qed.

Lemma reads_calls (n : nat) (cell : Cached.CachedValue (option Value))
    (p : Property) (h : Alloc.Heap) :
  reads n (mk cell p) h =
    let '(rs, cell', h') :=
      Cached.calls (repeat (Alloc.closure (calculateValue (create p))) n) cell h in
    (rs, mk cell' p, h').
Proof.
  revert cell h. induction n as [|n IH]; intros cell h; [reflexivity|].
  cbn [reads repeat Cached.calls]. rewrite value_unfold.
  destruct (Cached.getOrCacheValue _ _ _) as [[r cell'] h'].
  rewrite IH. destruct (Cached.calls _ _ _) as [[rs cell''] h''].
  reflexivity.
Qed.

Lemma closure_returns {A} (m : Alloc.M A) (h : Alloc.Heap) :
  Alloc.closure m h = (Returned (fst (m h)), snd (m h)).
Proof. unfold Alloc.closure. now destruct (m h). Qed.

End ValueReads.

(** C3: on a cell that holds nothing yet, a call whose compute function
    returns [v] stores [v] and returns it, and leaves the world as one run
    of the compute function leaves it; every later call, whatever compute
    function it is given, returns that same [v] and changes neither the
    cell nor the world.  With every invocation counted, the whole series
    counts one.  Hence [n > 1] reads of the [value] of a definition all
    return the one value that a single run of its computation produced
    (identities included), the allocator stands where that single run left
    it, and the computation is counted once. *)
Theorem getOrCacheValue_computes_once :
  (forall (W T : Type) (this : Cached.CachedValue T) (c : Computation W T)
          (rest : list (Computation W T)) (w w' : W) (v : T),
      Cached._isCached this = false ->
      c w = (Returned v, w') ->
      let cached := Cached.mkCachedValue true (Some v) in
      Cached.getOrCacheValue this c w = (Returned (Some v), cached, w')
      /\ Cached.calls rest cached w' =
           (repeat (Returned (Some v)) (List.length rest), cached, w')
      /\ forall k : nat,
           snd (Cached.calls (map Cached.counted (c :: rest)) this (k, w))
           = (S k, w'))
  /\
  (forall (property : Json.Property) (h : Alloc.Heap) (n : nat),
      1 < n ->
      let d := TopLevelVariableDefinition.create property in
      let r := fst (TopLevelVariableDefinition.calculateValue d h) in
      let h' := snd (TopLevelVariableDefinition.calculateValue d h) in
      TopLevelVariableDefinition.reads n d h =
        (repeat (Returned (Some r)) n,
         TopLevelVariableDefinition.mk (Cached.mkCachedValue true (Some r)) property,
         h')
      /\ forall k : nat,
           snd (Cached.calls
                  (repeat (Cached.counted
                             (Alloc.closure
                                (TopLevelVariableDefinition.calculateValue d))) n)
                  (TopLevelVariableDefinition._nameValue d) (k, h))
           = (S k, h')).
Proof.
  split.
  - intros W T this c rest w w' v H Hc cached. repeat split.
    + now apply getOrCacheValue_returns.
    + now rewrite calls_cached.
    + intros k. cbn [map].
      rewrite (calls_first_returns _ _ _ (k, w) (S k, w') v H
                 (counted_returns c w w' k _ Hc)).
      reflexivity.
  - intros property h n Hn d r h'. destruct n as [|n]; [lia|]. split.
    + unfold d at 1, TopLevelVariableDefinition.create. rewrite reads_calls.
      cbn [repeat].
      rewrite (calls_first_returns _ _ (Cached.create _) h h' r eq_refl
                 (closure_returns _ h)).
      now rewrite repeat_length.
    + intros k. cbn [repeat].
      rewrite (calls_first_returns _ _ (Cached.create _) (k, h) (S k, h') r
                 eq_refl (counted_returns _ h h' k _ (closure_returns _ h))).
      reflexivity.
Qed.

Lemma getOrCacheValue_computes_once_witness :
  Cached.getOrCacheValue (Cached.create nat) Samples.tick 5
    = (Returned (Some 5), Cached.mkCachedValue true (Some 5), 6)
  /\ TopLevelVariableDefinition.reads 3 Samples.disksVariable 20
     = (repeat (Returned (Some (Some Samples.disksExpanded))) 3,
        TopLevelVariableDefinition.mk
          (Cached.mkCachedValue true (Some (Some Samples.disksExpanded)))
          (TopLevelVariableDefinition._property Samples.disksVariable),
        23).
Proof.
  split.
  - exact (proj1 (proj1 getOrCacheValue_computes_once nat nat (Cached.create nat)
                    Samples.tick [Samples.failing] 5 6 5 eq_refl eq_refl)).
  - exact (proj1 (proj2 getOrCacheValue_computes_once
                    (TopLevelVariableDefinition._property Samples.disksVariable)
                    20 3 (le_S 2 2 (le_n 2)))).
Defined.

(** C4: on a cell that holds nothing yet, a compute function that throws
    has its exception passed on to the caller and leaves the cell as it
    was, flag unset and nothing stored; the next call therefore invokes
    the compute function it is given, so that two invocations are counted
    over the two calls. *)
Theorem getOrCacheValue_throw_leaves_uncomputed
    (W T : Type) (this : Cached.CachedValue T) (c : Computation W T)
    (w w' : W) (e : Exn) :
  Cached._isCached this = false ->
  c w = (Thrown e, w') ->
  Cached.getOrCacheValue this c w = (Thrown e, this, w')
  /\ (forall (c2 : Computation W T),
         Cached.getOrCacheValue this c2 w' =
           match c2 w' with
           | (Returned v, w'') =>
               (Returned (Some v), Cached.mkCachedValue true (Some v), w'')
           | (Thrown e2, w'') => (Thrown e2, this, w'')
           end)
  /\ (forall (c2 : Computation W T) (k : nat),
         fst (snd (Cached.calls [Cached.counted c; Cached.counted c2] this (k, w)))
         = S (S k)).
Proof.
  intros H Hc. repeat split.
  - now apply getOrCacheValue_throws.
  - intros c2. destruct (c2 w') as [[v|e2] w''] eqn:Hc2.
    + now apply getOrCacheValue_returns.
    + now apply getOrCacheValue_throws.
  - intros c2 k. cbn [Cached.calls].
    rewrite (getOrCacheValue_throws _ _ (k, w) (S k, w') e H
               (counted_returns c w w' k _ Hc)).
    destruct (c2 w') as [[v|e2] w''] eqn:Hc2.
    + rewrite (getOrCacheValue_returns _ _ (S k, w') (S (S k), w'') v H
                 (counted_returns c2 w' w'' (S k) _ Hc2)).
      reflexivity.
    + rewrite (getOrCacheValue_throws _ _ (S k, w') (S (S k), w'') e2 H
                 (counted_returns c2 w' w'' (S k) _ Hc2)).
      reflexivity.
Qed.

Lemma getOrCacheValue_throw_leaves_uncomputed_witness :
  Cached.getOrCacheValue (Cached.create nat) Samples.failing 5
    = (Thrown "boom", Cached.create nat, 6)
  /\ Cached.getOrCacheValue (Cached.create nat) Samples.tick 6
     = (Returned (Some 6), Cached.mkCachedValue true (Some 6), 7).
Proof.
  destruct (getOrCacheValue_throw_leaves_uncomputed nat nat (Cached.create nat)
              Samples.failing 5 6 "boom" eq_refl eq_refl) as [H1 [H2 _]].
  split; [exact H1 | exact (H2 Samples.tick)].
Defined.

(** ** Copy-block expansion *)

Section Expansion.

Import Json.
Import TopLevelVariableDefinition.

Lemma loopBody_skip (members : list Property) (loopVar : Value) (h : Alloc.Heap) :
  Spec.isLoopSpec loopVar = false -> loopBody members loopVar h = (members, h).
Proof.
  unfold Spec.isLoopSpec, loopBody.
  destruct loopVar as [o| | | | |]; try reflexivity. simpl.
  destruct (asStringValue _) as [name|]; [|reflexivity].
  destruct (getPropertyValue o templateKeys.loopVarInput); [discriminate | reflexivity].
Qed.

Lemma loopBody_loopSpec (members : list Property) (loopVar : Value) (h : Alloc.Heap) :
  Spec.isLoopSpec loopVar = true ->
  exists p, Spec.SynthesizedAt h loopVar p /\
            loopBody members loopVar h = ((members ++ [p])%list, S (S h)).
Proof.
  unfold Spec.isLoopSpec, loopBody, Spec.SynthesizedAt.
  destruct loopVar as [o| | | | |]; try discriminate. simpl.
  destruct (asStringValue _) as [name|] eqn:Hname; [|discriminate].
  destruct (getPropertyValue o templateKeys.loopVarInput) as [input|] eqn:Hinput;
    [|discriminate].
  intros _. eexists. split; [|reflexivity].
  exists o, name, input. auto.
Qed.

Lemma forOf_loopBody (es : list Value) (members : list Property) (h : Alloc.Heap) :
  exists synthesized,
    Alloc.forOf loopBody es members h =
      ((members ++ synthesized)%list, 2 * List.length synthesized + h) /\
    Spec.Synthesized h (filter Spec.isLoopSpec es) synthesized.
Proof.
  revert members h. induction es as [|e es IH]; intros members h.
  - exists []. split; [|constructor].
    cbn. now rewrite app_nil_r.
  - cbn [Alloc.forOf filter]. unfold Alloc.bind.
    destruct (Spec.isLoopSpec e) eqn:He.
    + destruct (loopBody_loopSpec members e h He) as [p [Hp ->]].
      destruct (IH (members ++ [p])%list (S (S h))) as [ps [-> Hps]].
      exists (p :: ps). split.
      * rewrite <- app_assoc. cbn [List.length app]. f_equal. lia.
      * now constructor.
    + rewrite (loopBody_skip members e h He). apply IH.
Qed.

Lemma forOf_loopBody_skip (pre post : list Value) (bad : Value)
    (members : list Property) (h : Alloc.Heap) :
  Spec.isLoopSpec bad = false ->
  Alloc.forOf loopBody (pre ++ bad :: post) members h =
  Alloc.forOf loopBody (pre ++ post) members h.
Proof.
  intros Hbad. revert members h.
  induction pre as [|e pre IH]; intros members h; cbn [app Alloc.forOf].
  - unfold Alloc.bind. now rewrite loopBody_skip.
  - unfold Alloc.bind. destruct (loopBody members e h) as [members' h'].
    apply IH.
Qed.

Lemma notCopy_isCopyKey (ps : list Property) :
  filter (notCopy (JsString.toLowerCase templateKeys.copy)) ps =
  filter (fun p => negb (Spec.isCopyKey p)) ps.
Proof. reflexivity. Qed.

Lemma calculateValue_copyBlock (property : Property) (valueObject : ObjectValue)
    (copyPropertyArray : ArrayValue) (h : Alloc.Heap) :
  Json.value property = Some (OfObject valueObject) ->
  getPropertyValue valueObject templateKeys.copy = Some (OfArray copyPropertyArray) ->
  exists synthesized,
    Spec.Synthesized h (filter Spec.isLoopSpec (elements copyPropertyArray))
      synthesized /\
    calculateValue (create property) h =
      (Some (OfObject
               (newObjectValue (2 * List.length synthesized + h)
                  (objectSpan valueObject)
                  (filter (fun p => negb (Spec.isCopyKey p)) (properties valueObject)
                     ++ synthesized)%list)),
       S (2 * List.length synthesized + h)).
Proof.
  intros Hvalue Hcopy. unfold calculateValue, create. cbn [_property].
  rewrite Hvalue. cbn [asObjectValue]. rewrite Hcopy. cbn [asArrayValue].
  unfold Alloc.bind.
  destruct (forOf_loopBody (elements copyPropertyArray)
              (filter (notCopy (JsString.toLowerCase templateKeys.copy))
                 (properties valueObject)) h) as [synthesized [-> Hs]].
  exists synthesized. split; [exact Hs | reflexivity].
Qed.

Lemma calculateValue_passthrough (property : Property) (h : Alloc.Heap) :
  Spec.copyBlock (Json.value property) = None ->
  calculateValue (create property) h = (Json.value property, h).
Proof.
  unfold Spec.copyBlock, calculateValue, create. cbn [_property].
  destruct (asObjectValue (Json.value property)) as [o|]; [|reflexivity].
  destruct (asArrayValue _); [discriminate | reflexivity].
Qed.

Lemma value_fresh (property : Property) (h h' : Alloc.Heap) (r : option Value) :
  calculateValue (create property) h = (r, h') ->
  value (create property) h =
    (Returned (Some r), mk (Cached.mkCachedValue true (Some r)) property, h').
Proof.
  intros Hc. unfold value, create. cbn [_nameValue _property].
  rewrite (getOrCacheValue_returns (Cached.create _) _ h h' r eq_refl).
  - reflexivity.
  - fold (create property). unfold Alloc.closure. now rewrite Hc.
Qed.

Lemma Synthesized_In (r : Ref) (es : list Value) (ps : list Property) (p : Property) :
  Spec.Synthesized r es ps -> In p ps ->
  exists e r', In e es /\ Spec.SynthesizedAt r' e p.
Proof.
  induction 1 as [|r e es q ps Hq Hrest IH]; intros Hin; [contradiction|].
  destruct Hin as [->|Hin].
  - exists e, r. split; [now left | exact Hq].
  - destruct (IH Hin) as [e' [r' [He' Hs]]]. exists e', r'. split; [now right | exact Hs].
Qed.

Lemma Synthesized_Forall2 (P : Value -> Property -> Prop) (r : Ref)
    (es : list Value) (ps : list Property) :
  (forall r' e p, Spec.SynthesizedAt r' e p -> P e p) ->
  Spec.Synthesized r es ps -> Forall2 P es ps.
Proof.
  intros HP. induction 1; constructor; eauto.
Qed.

Lemma SynthesizedAt_ExpandsTo (r : Ref) (e : Value) (p : Property) :
  Spec.SynthesizedAt r e p -> Spec.ExpandsTo e p.
Proof.
  intros [o [name [input [-> [Hname [Hinput ->]]]]]].
  exists o, name, input, (newArrayValue r (Json.span input) [input]).
  repeat split; assumption.
Qed.

Lemma SynthesizedAt_CarriesInputSpan (r : Ref) (e : Value) (p : Property) :
  Spec.SynthesizedAt r e p -> Spec.CarriesInputSpan e p.
Proof.
  intros [o [name [input [-> [Hname [Hinput ->]]]]]].
  exists o, input, (newArrayValue r (Json.span input) [input]).
  repeat split; assumption.
Qed.

End Expansion.

Section ExpansionClaims.

Import Json.
Import TopLevelVariableDefinition.

(** C2: for a definition whose property value is an object with a [copy]
    property that is an array, the [value] getter returns a new object
    whose members are (a, b) the original members whose name is not [copy]
    in any letter case, in their original order, followed by (c) one
    member for each element of the array that is an object with a string
    [name] and an [input], in order: its name has the unquoted text of
    [name] and its value is a one-element array of the [input] value
    itself.  The value
    [{"copy":[{"name":"disks","count":5,"input":"X"}], "other": 1}]
    computes to [{"other": 1, "disks": ["X"]}].  An object holds such a
    [copy] property, in particular, when exactly one of its members is
    named [copy] in some letter case and the value of that member is an
    array. *)
Theorem value_expands_copy_block :
  (forall (property : Property) (valueObject : ObjectValue)
          (copyPropertyArray : ArrayValue) (h : Alloc.Heap),
      Json.value property = Some (OfObject valueObject) ->
      getPropertyValue valueObject templateKeys.copy
        = Some (OfArray copyPropertyArray) ->
      exists (result : ObjectValue) (synthesized : list Property) d' h',
        value (create property) h
          = (Returned (Some (Some (OfObject result))), d', h') /\
        properties result
          = (filter (fun p => negb (Spec.isCopyKey p)) (properties valueObject)
               ++ synthesized)%list /\
        Forall2 Spec.ExpandsTo
          (filter Spec.isLoopSpec (elements copyPropertyArray)) synthesized)
  /\ fst (fst (value Samples.disksVariable 20))
       = Returned (Some (Some Samples.disksExpanded))
  /\ (forall (valueObject : ObjectValue) (copyProperty : Property)
             (copyPropertyArray : ArrayValue),
         In copyProperty (properties valueObject) ->
         Spec.isCopyKey copyProperty = true ->
         Json.value copyProperty = Some (OfArray copyPropertyArray) ->
         (forall q, In q (properties valueObject) ->
                    Spec.isCopyKey q = true -> q = copyProperty) ->
         getPropertyValue valueObject templateKeys.copy
           = Some (OfArray copyPropertyArray)).
Proof.
  split; [|split; [reflexivity|]].
  2:{ intros valueObject copyProperty copyPropertyArray Hin Hkey Hv Honly.
      rewrite <- Hv. now apply getPropertyValue_only_match. }
  intros property valueObject copyPropertyArray h Hvalue Hcopy.
  destruct (calculateValue_copyBlock property valueObject copyPropertyArray h
              Hvalue Hcopy) as [synthesized [Hs Hc]].
  eexists _, synthesized, _, _. split; [exact (value_fresh _ _ _ _ Hc)|].
  split; [reflexivity|].
  exact (Synthesized_Forall2 _ _ _ _ SynthesizedAt_ExpandsTo Hs).
Qed.

Lemma value_expands_copy_block_witness :
  exists (result : ObjectValue) (synthesized : list Property) d' h',
    value Samples.disksVariable 20
      = (Returned (Some (Some (OfObject result))), d', h') /\
    properties result
      = (filter (fun p => negb (Spec.isCopyKey p)) (properties Samples.disksValue)
           ++ synthesized)%list /\
    Forall2 Spec.ExpandsTo
      (filter Spec.isLoopSpec (elements Samples.copyArray)) synthesized.
Proof.
  exact (proj1 value_expands_copy_block (_property Samples.disksVariable)
           Samples.disksValue Samples.copyArray 20 eq_refl eq_refl).
Defined.

(** C5: for a definition whose property value is not an object with a
    [copy] property that is an array - it is no object, or has no [copy]
    property, or one that is no array - the [value] getter returns the
    property's value itself: the very node, identity included, with no
    node constructed on the way. *)
Theorem value_passes_through (property : Property) (h : Alloc.Heap) :
  (forall (o : ObjectValue) (a : ArrayValue),
      Json.value property = Some (OfObject o) ->
      getPropertyValue o templateKeys.copy <> Some (OfArray a)) ->
  value (create property) h =
    (Returned (Some (Json.value property)),
     mk (Cached.mkCachedValue true (Some (Json.value property))) property,
     h).
Proof.
  intros Hno. apply value_fresh, calculateValue_passthrough.
  unfold Spec.copyBlock.
  destruct (Json.value property) as [[o| | | | |]|]; try reflexivity. simpl.
  destruct (getPropertyValue o templateKeys.copy) as [[|a| | | |]|] eqn:Hcopy;
    try reflexivity.
  now destruct (Hno o a eq_refl).
Qed.

Lemma value_passes_through_witness :
  value Samples.numberVariable 20 =
    (Returned (Some (Some (OfNumber 15 (Language.mkSpan 5 1) "1"))),
     mk (Cached.mkCachedValue true
           (Some (Some (OfNumber 15 (Language.mkSpan 5 1) "1"))))
        (_property Samples.numberVariable),
     20).
Proof.
  apply (value_passes_through (_property Samples.numberVariable) 20).
  intros o a H. discriminate H.
Defined.

(** C6: an element of the [copy] array that is not an object, or has no
    string-valued [name], or has no [input], adds no member and constructs
    nothing, and the loop does not stop at it: run over the elements before
    it, the element and the elements after it, the loop appends to the
    members exactly one synthesized member for each loop spec among the
    other elements, those after the element included, in their order - the
    same members, with the same identities, as a run without the element -
    and the getter returns normally an object that ends with these
    members. *)
Theorem loop_skips_malformed_element
    (pre post : list Value) (bad : Value) (members : list Property)
    (h : Alloc.Heap) :
  ((forall o, bad <> OfObject o) \/
   (exists o, bad = OfObject o /\
      (asStringValue (getPropertyValue o templateKeys.loopVarName) = None \/
       getPropertyValue o templateKeys.loopVarInput = None))) ->
  loopBody members bad h = (members, h)
  /\ (exists synthesized : list Property,
         Alloc.forOf loopBody (pre ++ bad :: post) members h
           = ((members ++ synthesized)%list, 2 * List.length synthesized + h) /\
         Forall2 Spec.ExpandsTo (filter Spec.isLoopSpec (pre ++ post)) synthesized /\
         Alloc.forOf loopBody (pre ++ post) members h
           = ((members ++ synthesized)%list, 2 * List.length synthesized + h))
  /\ (forall (property : Property) (valueObject : ObjectValue) (r : Ref)
             (sp : Language.Span),
         Json.value property = Some (OfObject valueObject) ->
         getPropertyValue valueObject templateKeys.copy
           = Some (OfArray (newArrayValue r sp (pre ++ bad :: post))) ->
         exists (result : ObjectValue) (synthesized : list Property) d' h',
           value (create property) h
             = (Returned (Some (Some (OfObject result))), d', h') /\
           properties result
             = (filter (fun p => negb (Spec.isCopyKey p)) (properties valueObject)
                  ++ synthesized)%list /\
           Forall2 Spec.ExpandsTo (filter Spec.isLoopSpec (pre ++ post))
             synthesized).
Proof.
  intros Hbad.
  assert (Hskip : Spec.isLoopSpec bad = false).
  { unfold Spec.isLoopSpec. destruct Hbad as [Hno | [o [-> [Hname | Hinput]]]].
    - destruct bad as [o| | | | |]; try reflexivity. now destruct (Hno o).
    - now rewrite Hname.
    - rewrite Hinput. now destruct (asStringValue _). }
  assert (Hfilter : filter Spec.isLoopSpec (pre ++ bad :: post)
                    = filter Spec.isLoopSpec (pre ++ post)).
  { rewrite !filter_app. cbn [filter]. now rewrite Hskip. }
  split; [now apply loopBody_skip|]. split.
  - destruct (forOf_loopBody (pre ++ bad :: post) members h)
      as [synthesized [Hrun Hs]].
    exists synthesized. split; [exact Hrun|]. rewrite Hfilter in Hs.
    split; [exact (Synthesized_Forall2 _ _ _ _ SynthesizedAt_ExpandsTo Hs)|].
    now rewrite <- (forOf_loopBody_skip pre post bad members h Hskip).
  - intros property valueObject r sp Hvalue Hcopy.
    destruct (calculateValue_copyBlock property valueObject _ h Hvalue Hcopy)
      as [synthesized [Hs Hc]].
    cbn [elements] in Hs. rewrite Hfilter in Hs.
    eexists _, synthesized, _, _. split; [exact (value_fresh _ _ _ _ Hc)|].
    split; [reflexivity|].
    exact (Synthesized_Forall2 _ _ _ _ SynthesizedAt_ExpandsTo Hs).
Qed.

Lemma loop_skips_malformed_element_witness :
  loopBody [] Samples.inputOnly 20 = ([], 20)
  /\ exists synthesized : list Property,
       Alloc.forOf loopBody
         ([OfObject Samples.loopSpec] ++ Samples.inputOnly :: [Samples.nameAndInput])
         [] 20
         = (([] ++ synthesized)%list, 2 * List.length synthesized + 20) /\
       Forall2 Spec.ExpandsTo
         (filter Spec.isLoopSpec ([OfObject Samples.loopSpec] ++ [Samples.nameAndInput]))
         synthesized /\
       Alloc.forOf loopBody
         ([OfObject Samples.loopSpec] ++ [Samples.nameAndInput]) [] 20
         = (([] ++ synthesized)%list, 2 * List.length synthesized + 20).
Proof.
  destruct (loop_skips_malformed_element
              [OfObject Samples.loopSpec] [Samples.nameAndInput]
              Samples.inputOnly [] 20) as [H1 [H2 _]].
  - right. eexists. split; [reflexivity|]. left. reflexivity.
  - split; [exact H1 | exact H2].
Defined.

End ExpansionClaims.

(** ** Spans *)

Section Spans.

Import Json.

Lemma spans_object (o : ObjectValue) :
  spans (OfObject o) = objectSpan o :: flat_map propertySpans (properties o).
Proof.
  destruct o as [r sp ps]. simpl. f_equal.
  apply flat_map_ext. intros [r' sp' n v]. reflexivity.
Qed.

Lemma spans_array (a : ArrayValue) :
  spans (OfArray a) = arraySpan a :: flat_map spans (elements a).
Proof. destruct a; reflexivity. Qed.

Lemma span_in_spans (v : Value) : In (span v) (spans v).
Proof. destruct v as [[r sp ps]|[r sp es]|s|r sp t|r sp b|r sp]; now left. Qed.

Lemma spans_property_value (o : ObjectValue) (p : Property) (v : Value) :
  In p (properties o) -> value p = Some v -> incl (spans v) (spans (OfObject o)).
Proof.
  intros Hin Hv s Hs. rewrite spans_object. right.
  apply in_flat_map. exists p. split; [exact Hin|].
  unfold propertySpans. rewrite Hv. now do 2 right.
Qed.

Lemma spans_property (o : ObjectValue) (p : Property) :
  In p (properties o) -> incl (propertySpans p) (spans (OfObject o)).
Proof.
  intros Hin s Hs. rewrite spans_object. right.
  apply in_flat_map. now exists p.
Qed.

Lemma spans_getPropertyValue (o : ObjectValue) (key : string) (v : Value) :
  getPropertyValue o key = Some v -> incl (spans v) (spans (OfObject o)).
Proof.
  intros H. destruct (getPropertyValue_In o key v H) as [p [Hin [Hv _]]].
  now apply (spans_property_value o p v).
Qed.

Lemma spans_element (a : ArrayValue) (e : Value) :
  In e (elements a) -> incl (spans e) (spans (OfArray a)).
Proof.
  intros Hin s Hs. rewrite spans_array. right.
  apply in_flat_map. now exists e.
Qed.

Lemma asStringValue_Some (v : option Value) (s : StringValue) :
  asStringValue v = Some s -> v = Some (OfString s).
Proof.
  destruct v as [[| |s'| | |]|]; try discriminate. now intros [= ->].
Qed.

Lemma SynthesizedAt_spans (r : Ref) (e : Value) (p : Property) :
  Spec.SynthesizedAt r e p -> incl (propertySpans p) (spans e).
Proof.
  intros [o [name [input [-> [Hname [Hinput ->]]]]]].
  apply asStringValue_Some in Hname.
  pose proof (spans_getPropertyValue _ _ _ Hname) as Hn.
  pose proof (spans_getPropertyValue _ _ _ Hinput) as Hi.
  pose proof (span_in_spans input) as Hs.
  intros s. unfold propertySpans.
  cbn [propertySpan nameValue value]. rewrite spans_array.
  cbn [arraySpan elements flat_map]. rewrite app_nil_r.
  intros [<-|[<-|[<-|Hin]]].
  - now apply Hi.
  - apply Hn. now left.
  - now apply Hi.
  - now apply Hi.
Qed.

(** C10: in the expansion of a [copy] block, each synthesized member - the
    one-element array and the property around it - carries the span of
    the [input] node of its loop spec, and the new object carries the span
    of the original variable value; so every span met in the expanded
    value is the span of a node of the original value. *)
Theorem expansion_spans_come_from_the_document
    (property : Property) (valueObject : ObjectValue)
    (copyPropertyArray : ArrayValue) (h : Alloc.Heap) :
  Json.value property = Some (OfObject valueObject) ->
  getPropertyValue valueObject templateKeys.copy = Some (OfArray copyPropertyArray) ->
  exists (result : ObjectValue) (synthesized : list Property) d' h',
    TopLevelVariableDefinition.value
      (TopLevelVariableDefinition.create property) h
      = (Returned (Some (Some (OfObject result))), d', h') /\
    properties result
      = (filter (fun p => negb (Spec.isCopyKey p)) (properties valueObject)
           ++ synthesized)%list /\
    Forall2 Spec.CarriesInputSpan
      (filter Spec.isLoopSpec (elements copyPropertyArray)) synthesized /\
    objectSpan result = objectSpan valueObject /\
    incl (spans (OfObject result)) (spans (OfObject valueObject)).
Proof.
  intros Hvalue Hcopy.
  destruct (calculateValue_copyBlock property valueObject copyPropertyArray h
              Hvalue Hcopy) as [synthesized [Hs Hc]].
  eexists _, synthesized, _, _. split; [exact (value_fresh _ _ _ _ Hc)|].
  split; [reflexivity|].
  split; [exact (Synthesized_Forall2 _ _ _ _ SynthesizedAt_CarriesInputSpan Hs)|].
  split; [reflexivity|].
  intros s. rewrite (spans_object (newObjectValue _ _ _)).
  cbn [objectSpan properties]. intros [<-|Hin].
  - rewrite spans_object. now left.
  - apply in_flat_map in Hin as [p [Hp Hsp]].
    apply in_app_or in Hp as [Hp|Hp].
    + apply filter_In in Hp as [Hp _]. now apply (spans_property valueObject p).
    + destruct (Synthesized_In _ _ _ p Hs Hp) as [e [r' [He Hat]]].
      apply filter_In in He as [He _].
      apply (spans_getPropertyValue _ _ _ Hcopy).
      apply (spans_element _ e He).
      now apply (SynthesizedAt_spans r' e p Hat).
Qed.

Lemma expansion_spans_come_from_the_document_witness :
  exists (result : ObjectValue) (synthesized : list Property) d' h',
    TopLevelVariableDefinition.value Samples.disksVariable 20
      = (Returned (Some (Some (OfObject result))), d', h') /\
    properties result
      = (filter (fun p => negb (Spec.isCopyKey p)) (properties Samples.disksValue)
           ++ synthesized)%list /\
    Forall2 Spec.CarriesInputSpan
      (filter Spec.isLoopSpec (elements Samples.copyArray)) synthesized /\
    objectSpan result = objectSpan Samples.disksValue /\
    incl (spans (OfObject result)) (spans (OfObject Samples.disksValue)).
Proof.
  exact (expansion_spans_come_from_the_document
           (TopLevelVariableDefinition._property Samples.disksVariable)
           Samples.disksValue Samples.copyArray 20 eq_refl eq_refl).
Defined.

End Spans.

(** ** Hover text *)

Section HoverText.

Import Json.
Import Hover.

Lemma getParamUsage_nonEmpty (pd : UserFunctionParameterDefinition.t) :
  UserFunctionInfo.getParamUsage pd = Spec.paramUsageNonEmpty pd.
Proof.
  unfold UserFunctionInfo.getParamUsage, Spec.paramUsageNonEmpty.
  destruct (UserFunctionParameterDefinition.type pd) as [[| |ty| | |]|];
    try reflexivity.
  simpl. destruct (unquotedValue ty); reflexivity.
Qed.

(** C7, as the specification states it, fails where a text is empty: a
    parameter that declares the type [""] is shown by its bare name, not
    as [a []], and a namespace whose name is [""] gives no [.] prefix. *)
Lemma getUsage_empty_texts :
  UserFunctionInfo.getUsage None Samples.functionEmptyType = "f(a)"
  /\ Spec.usage None Samples.functionEmptyType = "f(a [])"
  /\ UserFunctionInfo.getUsage (Some Samples.namespaceEmptyName) Samples.functionF
     = "f(a, b [string])"
  /\ Spec.usage (Some Samples.namespaceEmptyName) Samples.functionF
     = ".f(a, b [string])".
Proof. repeat split. Qed.

(** C7, amended: [getUsage] returns [ns.f(p1, p2, ...)], where the [ns.]
    prefix is left out when there is no namespace or its name is the empty
    text, and each parameter is its bare unquoted name, or [name [type]]
    with the type text in lower case when the parameter declares a
    string-typed [type] whose text is not empty; the parameters are joined
    by [, ].  The function [f] of the namespace [ns] with the parameters
    [{name:"a"}] and [{name:"b", type:"string"}] gives
    [ns.f(a, b [string])], and [f(a, b [string])] without the namespace. *)
Theorem getUsage_format :
  (forall (namespace : option UserFunctionNamespaceDefinition.t)
          (func : UserFunctionDefinition.t),
      UserFunctionInfo.getUsage namespace func = Spec.usageNonEmpty namespace func)
  /\ UserFunctionInfo.getUsage (Some Samples.namespaceNs) Samples.functionF
     = "ns.f(a, b [string])"
  /\ UserFunctionInfo.getUsage None Samples.functionF = "f(a, b [string])".
Proof.
  split; [|split; reflexivity].
  intros namespace func. unfold UserFunctionInfo.getUsage, Spec.usageNonEmpty.
  rewrite (map_ext _ _ getParamUsage_nonEmpty).
  destruct namespace as [n|]; [|reflexivity].
  destruct (unquotedValue (UserFunctionNamespaceDefinition.namespaceName n));
    reflexivity.
Qed.

(** C8: the hover text of a namespace is made of lines: the namespace name
    in bold followed by [ User-defined namespace]; then the one line
    [No members] when the namespace has no member, and otherwise the line
    [Members:] followed by one line per member, in declaration order, each
    [* ] and the member's usage computed without a namespace. *)
Theorem namespace_hover_text :
  (forall (this : UserNamespaceInfo.t),
      UserNamespaceInfo.getHoverText this
      = JsString.join LF (Spec.namespaceLines (UserNamespaceInfo._namespace this)))
  /\ (forall (name : StringValue) (sp : Language.Span),
         UserNamespaceInfo.getHoverText
           (UserNamespaceInfo.mk (UserFunctionNamespaceDefinition.mk name []) sp)
         = "**" ++ unquotedValue name ++ "** User-defined namespace"
             ++ LF ++ "No members")
  /\ (forall (name : StringValue) (m1 m2 : UserFunctionDefinition.t)
             (sp : Language.Span),
         UserNamespaceInfo.getHoverText
           (UserNamespaceInfo.mk (UserFunctionNamespaceDefinition.mk name [m1; m2]) sp)
         = "**" ++ unquotedValue name ++ "** User-defined namespace"
             ++ LF ++ "Members:"
             ++ LF ++ "* " ++ UserFunctionInfo.getUsage None m1
             ++ LF ++ "* " ++ UserFunctionInfo.getUsage None m2).
Proof.
  split; [|split].
  - intros [[name ms] sp].
    unfold UserNamespaceInfo.getHoverText, Spec.namespaceLines.
    cbn [UserNamespaceInfo._namespace UserFunctionNamespaceDefinition.members
         UserFunctionNamespaceDefinition.namespaceName].
    destruct ms as [|m ms].
    + cbn [map List.length Nat.ltb Nat.leb JsString.join].
      now rewrite !append_assoc.
    + rewrite map_map. cbn [map List.length Nat.ltb Nat.leb].
      rewrite !join_cons. now rewrite !append_assoc.
  - intros name sp. unfold UserNamespaceInfo.getHoverText.
    cbn [UserNamespaceInfo._namespace UserFunctionNamespaceDefinition.members
         UserFunctionNamespaceDefinition.namespaceName
         map List.length Nat.ltb Nat.leb].
    now rewrite !append_assoc.
  - intros name m1 m2 sp. unfold UserNamespaceInfo.getHoverText.
    cbn [UserNamespaceInfo._namespace UserFunctionNamespaceDefinition.members
         UserFunctionNamespaceDefinition.namespaceName
         map List.length Nat.ltb Nat.leb JsString.join].
    now rewrite !append_assoc.
Qed.

(** C9: with a description that is absent or empty, the hover text of a
    function is its usage in bold and nothing more, and that of a
    parameter reference is its name in bold followed by [ (parameter)] and
    nothing more; with a description that is not empty, a line feed and the
    description follow. *)
Theorem hover_text_description :
  (forall (name usage : string) (sp : Language.Span),
      FunctionInfo.getHoverText (FunctionInfo.mk name usage None sp)
        = "**" ++ usage ++ "**"
      /\ FunctionInfo.getHoverText (FunctionInfo.mk name usage (Some "") sp)
        = "**" ++ usage ++ "**"
      /\ forall (c : ascii) (d : string),
           FunctionInfo.getHoverText
             (FunctionInfo.mk name usage (Some (String c d)) sp)
           = "**" ++ usage ++ "**" ++ LF ++ String c d)
  /\
  (forall (name : string) (sp : Language.Span),
      ParameterReferenceInfo.getHoverText (ParameterReferenceInfo.mk name None sp)
        = "**" ++ name ++ "** (parameter)"
      /\ ParameterReferenceInfo.getHoverText
           (ParameterReferenceInfo.mk name (Some "") sp)
        = "**" ++ name ++ "** (parameter)"
      /\ forall (c : ascii) (d : string),
           ParameterReferenceInfo.getHoverText
             (ParameterReferenceInfo.mk name (Some (String c d)) sp)
           = "**" ++ name ++ "** (parameter)" ++ LF ++ String c d).
Proof.
  split.
  - intros name usage sp.
    unfold FunctionInfo.getHoverText, descriptionLine. cbn. repeat split.
  - intros name sp.
    unfold ParameterReferenceInfo.getHoverText, descriptionLine. cbn.
    repeat split.
Qed.

End HoverText.

(** * Further properties of the code *)

(** ** [CachedValue]: series of calls *)





(** ** Copy-block expansion: nodes, lookups and the two readers of a loop spec *)

Section ExpansionFurther.

Import Json.

Lemma Synthesized_length (r : Ref) (es : list Value) (ps : list Property) :
  Spec.Synthesized r es ps -> List.length ps = List.length es.
Proof. induction 1; cbn [List.length]; congruence. Qed.

Lemma Synthesized_refs (r : Ref) (es : list Value) (ps : list Property) :
  Spec.Synthesized r es ps ->
  Forall (fun p => exists a, value p = Some (OfArray a) /\
                             r <= arrayRef a /\
                             propertyRef p = S (arrayRef a) /\
                             propertyRef p < r + 2 * List.length ps) ps.
Proof.
  induction 1 as [|r e es p ps Hp Hrest IH]; constructor.
  - destruct Hp as [o [name [input [-> [_ [_ ->]]]]]].
    eexists. split; [reflexivity|]. cbn [arrayRef propertyRef List.length]. lia.
  - apply (Forall_impl _ (P := _) ) with (2 := IH).
    intros q [a [Hv [Hle [Href Hlt]]]]. exists a. cbn [List.length].
    repeat split; try assumption; lia.
Qed.

Lemma Synthesized_app_inv (r : Ref) (es1 es2 : list Value) (ps : list Property) :
  Spec.Synthesized r (es1 ++ es2) ps ->
  exists ps1 ps2,
    ps = (ps1 ++ ps2)%list /\
    Spec.Synthesized r es1 ps1 /\
    Spec.Synthesized (2 * List.length es1 + r) es2 ps2.
Proof.
  revert r ps. induction es1 as [|e es1 IH]; intros r ps Hs.
  - exists [], ps. repeat split; [constructor | exact Hs].
  - cbn [app] in Hs. inversion Hs as [|? ? ? p ps' Hp Hrest]; subst.
    destruct (IH _ _ Hrest) as [ps1 [ps2 [-> [H1 H2]]]].
    exists (p :: ps1), ps2. repeat split.
    + now constructor.
    + cbn [List.length].
      now replace (2 * S (List.length es1) + r)
        with (2 * List.length es1 + S (S r)) by lia.
Qed.

Lemma find_app_none {A} (f : A -> bool) (l1 l2 : list A) :
  (forall x, In x l1 -> f x = false) -> find f (l1 ++ l2) = find f l2.
Proof.
  induction l1 as [|x l1 IH]; intros H; [reflexivity|].
  cbn [app find]. rewrite (H x (or_introl eq_refl)).
  apply IH. intros y Hy. apply H. now right.
Qed.

Lemma find_filter {A} (f g : A -> bool) (l : list A) :
  (forall x, f x = true -> g x = true) -> find f (filter g l) = find f l.
Proof.
  intros H. induction l as [|x l IH]; [reflexivity|]. cbn [filter find].
  destruct (f x) eqn:Hf.
  - rewrite (H x Hf). cbn [find]. now rewrite Hf.
  - destruct (g x); [cbn [find]; now rewrite Hf | exact IH].
Qed.

Lemma sameKey_other (a key : string) :
  sameKey key templateKeys.copy = false ->
  sameKey a key = true -> sameKey a templateKeys.copy = false.
Proof.
  unfold sameKey. intros Hkey Ha. apply String.eqb_eq in Ha.
  now rewrite Ha.
Qed.

Lemma copyBlock_Some (v : option Value) (o : ObjectValue) (a : ArrayValue) :
  Spec.copyBlock v = Some (o, a) ->
  v = Some (OfObject o) /\
  getPropertyValue o templateKeys.copy = Some (OfArray a).
Proof.
  unfold Spec.copyBlock.
  destruct v as [[o'| | | | |]|]; try discriminate. cbn [asObjectValue].
  destruct (getPropertyValue o' templateKeys.copy) as [[|a'| | | |]|] eqn:Hcopy;
    try discriminate.
  cbn [asArrayValue]. intros [= -> ->]. now split.
Qed.

(** X3: expanding a [copy] block constructs two nodes for each loop spec
    and one more for the new object, which is the last to be constructed;
    the new object has one member for each retained member and one for each
    loop spec, and every synthesized member and its array have identities
    of their own, handed out during this expansion. *)
Theorem value_constructs_two_nodes_per_loop_spec
    (property : Property) (valueObject : ObjectValue)
    (copyPropertyArray : ArrayValue) (h : Alloc.Heap) :
  Json.value property = Some (OfObject valueObject) ->
  getPropertyValue valueObject templateKeys.copy = Some (OfArray copyPropertyArray) ->
  let k := List.length (filter Spec.isLoopSpec (elements copyPropertyArray)) in
  let retained :=
    filter (fun p => negb (Spec.isCopyKey p)) (properties valueObject) in
  exists (result : ObjectValue) d',
    TopLevelVariableDefinition.value
      (TopLevelVariableDefinition.create property) h
      = (Returned (Some (Some (OfObject result))), d', S (2 * k + h)) /\
    List.length (properties result) = List.length retained + k /\
    objectRef result = 2 * k + h /\
    Forall (fun p => exists a, value p = Some (OfArray a) /\
                               h <= arrayRef a /\
                               propertyRef p = S (arrayRef a) /\
                               propertyRef p < objectRef result)
      (skipn (List.length retained) (properties result)).
Proof.
  intros Hvalue Hcopy k retained.
  destruct (calculateValue_copyBlock property valueObject copyPropertyArray h
              Hvalue Hcopy) as [synthesized [Hs Hc]].
  pose proof (Synthesized_length _ _ _ Hs) as Hlen. fold k in Hlen.
  rewrite Hlen in Hc.
  eexists _, _. split; [exact (value_fresh _ _ _ _ Hc)|].
  cbn [properties objectRef]. fold retained.
  split; [now rewrite length_app, Hlen|]. split; [reflexivity|].
  rewrite skipn_app, skipn_all, Nat.sub_diag. cbn [skipn app].
  apply (Forall_impl _ (P := _)) with (2 := Synthesized_refs _ _ _ Hs).
  intros p [a [Hv [Hle [Href Hlt]]]]. exists a.
  repeat split; try assumption. lia.
Qed.

Lemma value_constructs_two_nodes_per_loop_spec_witness :
  exists (result : ObjectValue) d',
    TopLevelVariableDefinition.value Samples.disksVariable 20
      = (Returned (Some (Some (OfObject result))), d', 23) /\
    List.length (properties result) = 2 /\
    objectRef result = 22.
Proof.
  destruct (value_constructs_two_nodes_per_loop_spec
              (TopLevelVariableDefinition._property Samples.disksVariable)
              Samples.disksValue Samples.copyArray 20 eq_refl eq_refl)
    as [result [d' [Hv [Hl [Hr _]]]]].
  exists result, d'. split; [exact Hv|]. split; [exact Hl | exact Hr].
Defined.

(** X4: the loop of the [value] getter and [createIfValid] read a loop
    spec alike: for an element with a string [name] and an [input], the
    member that the loop adds and the definition that [createIfValid]
    returns have the same name token, and their values are arrays with the
    same span and the same single element. *)
Theorem loopBody_agrees_with_createIfValid
    (loopVar : Value) (members : list Property) (h h' : Alloc.Heap) :
  Spec.isLoopSpec loopVar = true ->
  exists (p : Property) (d : TopLevelCopyBlockVariableDefinition.t)
         (a a' : ArrayValue),
    TopLevelVariableDefinition.loopBody members loopVar h
      = ((members ++ [p])%list, S (S h)) /\
    TopLevelCopyBlockVariableDefinition.createIfValid loopVar h' = (Some d, S h') /\
    nameValue p = TopLevelCopyBlockVariableDefinition.nameValue d /\
    value p = Some (OfArray a) /\
    TopLevelCopyBlockVariableDefinition.value d = Some (OfArray a') /\
    elements a = elements a' /\
    arraySpan a = arraySpan a'.
Proof.
  intros Hspec.
  destruct (loopBody_loopSpec members loopVar h Hspec)
    as [p [[o [name [input [-> [Hname [Hinput ->]]]]]] Hbody]].
  eexists _, _, _, _. split; [exact Hbody|].
  unfold TopLevelCopyBlockVariableDefinition.createIfValid,
    TopLevelCopyBlockVariableDefinition.create.
  cbn [asObjectValue]. rewrite Hname, Hinput. cbn.
  repeat split.
Qed.

Lemma loopBody_agrees_with_createIfValid_witness :
  exists (p : Property) (d : TopLevelCopyBlockVariableDefinition.t)
         (a a' : ArrayValue),
    TopLevelVariableDefinition.loopBody [] Samples.nameAndInput 20
      = (([] ++ [p])%list, 22) /\
    TopLevelCopyBlockVariableDefinition.createIfValid Samples.nameAndInput 7
      = (Some d, 8) /\
    nameValue p = TopLevelCopyBlockVariableDefinition.nameValue d /\
    value p = Some (OfArray a) /\
    TopLevelCopyBlockVariableDefinition.value d = Some (OfArray a') /\
    elements a = elements a' /\
    arraySpan a = arraySpan a'.
Proof.
  exact (loopBody_agrees_with_createIfValid Samples.nameAndInput [] 20 7 eq_refl).
Defined.

(** X5: an element that [createIfValid] rejects adds no member in the
    loop of the [value] getter; and an element that the loop passes over
    although [createIfValid] accepts it gives a definition whose value is
    [null], for which no node was constructed. *)
Theorem createIfValid_and_skipped_elements
    (loopVar : Value) (members : list Property) (h h' : Alloc.Heap) :
  (fst (TopLevelCopyBlockVariableDefinition.createIfValid loopVar h') = None ->
   TopLevelVariableDefinition.loopBody members loopVar h = (members, h))
  /\ (forall d : TopLevelCopyBlockVariableDefinition.t,
         TopLevelVariableDefinition.loopBody members loopVar h = (members, h) ->
         fst (TopLevelCopyBlockVariableDefinition.createIfValid loopVar h') = Some d ->
         TopLevelCopyBlockVariableDefinition.value d = None /\
         snd (TopLevelCopyBlockVariableDefinition.createIfValid loopVar h') = h').
Proof.
  split.
  - intros Hnone. apply loopBody_skip.
    destruct loopVar as [o| | | | |]; try reflexivity.
    rewrite createIfValid_object in Hnone. unfold Spec.isLoopSpec.
    destruct (asStringValue _); [discriminate | reflexivity].
  - intros d Hskip Hsome.
    destruct (Spec.isLoopSpec loopVar) eqn:Hspec.
    + destruct (loopBody_loopSpec members loopVar h Hspec) as [p [_ Hbody]].
      rewrite Hbody in Hskip. injection Hskip as _ Hh. lia.
    + destruct loopVar as [o| | | | |]; try discriminate Hsome.
      unfold Spec.isLoopSpec in Hspec.
      unfold TopLevelCopyBlockVariableDefinition.createIfValid,
        TopLevelCopyBlockVariableDefinition.create in *.
      cbn [asObjectValue] in *.
      destruct (asStringValue _) as [name|]; [|discriminate Hsome].
      destruct (getPropertyValue o templateKeys.loopVarInput); [discriminate Hspec|].
      cbn in Hsome |- *. injection Hsome as <-. now split.
Qed.

Lemma createIfValid_and_skipped_elements_witness :
  TopLevelVariableDefinition.loopBody [] Samples.nameOnly 20 = ([], 20)
  /\ snd (TopLevelCopyBlockVariableDefinition.createIfValid Samples.nameOnly 7) = 7.
Proof.
  split; [reflexivity|].
  exact (proj2
           (proj2 (createIfValid_and_skipped_elements Samples.nameOnly [] 20 7)
              {| TopLevelCopyBlockVariableDefinition._copyVariableObject :=
                   newObjectValue 0 (Language.mkSpan 0 0)
                     [Samples.prop 1 "name" (Samples.text 3 "x")];
                 TopLevelCopyBlockVariableDefinition.nameValue :=
                   Samples.str 3 0 0 "x";
                 TopLevelCopyBlockVariableDefinition.value := None |}
              eq_refl eq_refl)).
Defined.

(** X6: a definition that [createIfValid] returns reports the span of the
    whole loop-spec object as its span, and as its usage the unquoted text
    of the object's [name], with the friendly type [iteration variable] and
    no description. *)
Theorem createIfValid_span_and_usageInfo
    (copyVariableObject : Value) (h : Alloc.Heap)
    (d : TopLevelCopyBlockVariableDefinition.t) :
  fst (TopLevelCopyBlockVariableDefinition.createIfValid copyVariableObject h)
    = Some d ->
  TopLevelCopyBlockVariableDefinition.span d = Json.span copyVariableObject
  /\ exists (o : ObjectValue) (name : StringValue),
       copyVariableObject = OfObject o /\
       asStringValue (getPropertyValue o templateKeys.loopVarName) = Some name /\
       TopLevelCopyBlockVariableDefinition.usageInfo d
         = {| usage := unquotedValue name;
              friendlyType := "iteration variable";
              description := None |}.
Proof.
  intros Hd. destruct copyVariableObject as [o| | | | |]; try discriminate Hd.
  rewrite createIfValid_object in Hd.
  destruct (asStringValue _) as [name|] eqn:Hname; [|discriminate Hd].
  injection Hd as <-. split; [reflexivity|].
  exists o, name. repeat split. exact Hname.
Qed.

Lemma createIfValid_span_and_usageInfo_witness :
  TopLevelCopyBlockVariableDefinition.span
    {| TopLevelCopyBlockVariableDefinition._copyVariableObject := Samples.loopSpec;
       TopLevelCopyBlockVariableDefinition.nameValue := Samples.str 6 17 7 "disks";
       TopLevelCopyBlockVariableDefinition.value :=
         Some (OfArray (newArrayValue 20 (Language.mkSpan 43 3) [Samples.inputX])) |}
  = Language.mkSpan 9 38.
Proof.
  exact (proj1 (createIfValid_span_and_usageInfo (OfObject Samples.loopSpec) 20
                  _ eq_refl)).
Defined.

(** X7: the computed value is [null] exactly when the property has no
    value. *)
Theorem value_null_iff_property_value_null (property : Property) (h : Alloc.Heap) :
  fst (fst (TopLevelVariableDefinition.value
              (TopLevelVariableDefinition.create property) h))
    = Returned (Some None)
  <-> Json.value property = None.
Proof.
  destruct (Spec.copyBlock (Json.value property)) as [[o a]|] eqn:Hblock.
  - apply copyBlock_Some in Hblock as [Hvalue Hcopy].
    destruct (calculateValue_copyBlock property o a h Hvalue Hcopy)
      as [synthesized [_ Hc]].
    rewrite (value_fresh _ _ _ _ Hc), Hvalue. cbn [fst].
    split; discriminate.
  - rewrite (value_fresh _ _ _ _ (calculateValue_passthrough property h Hblock)).
    cbn [fst]. split; [now intros [= ->] | now intros ->].
Qed.

(** X8: expansion leaves the other members in place for a lookup: for a key
    that is not [copy] in any letter case and that no loop spec of the
    [copy] array has as its [name], the expanded value answers what the
    original value answers. *)
Theorem expansion_keeps_other_lookups
    (property : Property) (valueObject : ObjectValue)
    (copyPropertyArray : ArrayValue) (h : Alloc.Heap) (key : string) :
  Json.value property = Some (OfObject valueObject) ->
  getPropertyValue valueObject templateKeys.copy = Some (OfArray copyPropertyArray) ->
  sameKey key templateKeys.copy = false ->
  (forall (o : ObjectValue) (name : StringValue),
      In (OfObject o) (elements copyPropertyArray) ->
      asStringValue (getPropertyValue o templateKeys.loopVarName) = Some name ->
      sameKey (unquotedValue name) key = false) ->
  exists (result : ObjectValue) d' h',
    TopLevelVariableDefinition.value
      (TopLevelVariableDefinition.create property) h
      = (Returned (Some (Some (OfObject result))), d', h') /\
    getPropertyValue result key = getPropertyValue valueObject key.
Proof.
  intros Hvalue Hcopy Hkey Hnames.
  destruct (calculateValue_copyBlock property valueObject copyPropertyArray h
              Hvalue Hcopy) as [synthesized [Hs Hc]].
  eexists _, _, _. split; [exact (value_fresh _ _ _ _ Hc)|].
  unfold getPropertyValue, getProperty. cbn [properties].
  rewrite rev_app_distr, find_app_none.
  - rewrite <- filter_rev, find_filter; [reflexivity|].
    intros q Hq. unfold Spec.isCopyKey.
    now rewrite (sameKey_other _ key Hkey Hq).
  - intros q Hq. apply in_rev in Hq.
    destruct (Synthesized_In _ _ _ q Hs Hq)
      as [e [r' [He [o [name [input [-> [Hname [_ ->]]]]]]]]].
    apply filter_In in He as [He _]. cbn [nameValue].
    exact (Hnames o name He Hname).
Qed.

Lemma expansion_keeps_other_lookups_witness :
  exists (result : ObjectValue) d' h',
    TopLevelVariableDefinition.value Samples.disksVariable 20
      = (Returned (Some (Some (OfObject result))), d', h') /\
    getPropertyValue result "OTHER" = getPropertyValue Samples.disksValue "OTHER".
Proof.
  apply (expansion_keeps_other_lookups
           (TopLevelVariableDefinition._property Samples.disksVariable)
           Samples.disksValue Samples.copyArray 20 "OTHER" eq_refl eq_refl eq_refl).
  intros o name [Ho|[]] Hname. injection Ho as <-.
  injection Hname as <-. reflexivity.
Defined.

(** X9: a loop variable is found in the expanded value under its name: for
    a loop spec of the [copy] array with a string [name] and an [input],
    whose name no retained member and no other loop spec shares in any
    letter case, a lookup of that name in the expanded value answers an
    array whose single element is the [input] value and whose span is the
    span of [input]. *)
Theorem expanded_value_lookup_loop_variable
    (property : Property) (valueObject : ObjectValue)
    (copyPropertyArray : ArrayValue) (h : Alloc.Heap)
    (pre post : list Value) (o : ObjectValue) (name : StringValue)
    (input : Value) :
  Json.value property = Some (OfObject valueObject) ->
  getPropertyValue valueObject templateKeys.copy = Some (OfArray copyPropertyArray) ->
  elements copyPropertyArray = (pre ++ OfObject o :: post)%list ->
  asStringValue (getPropertyValue o templateKeys.loopVarName) = Some name ->
  getPropertyValue o templateKeys.loopVarInput = Some input ->
  (forall p, In p (properties valueObject) ->
             Spec.isCopyKey p = false ->
             sameKey (unquotedValue (nameValue p)) (unquotedValue name) = false) ->
  (forall (o' : ObjectValue) (name' : StringValue),
      In (OfObject o') (pre ++ post) ->
      asStringValue (getPropertyValue o' templateKeys.loopVarName) = Some name' ->
      sameKey (unquotedValue name') (unquotedValue name) = false) ->
  exists (result : ObjectValue) d' h' (a : ArrayValue),
    TopLevelVariableDefinition.value
      (TopLevelVariableDefinition.create property) h
      = (Returned (Some (Some (OfObject result))), d', h') /\
    getPropertyValue result (unquotedValue name) = Some (OfArray a) /\
    elements a = [input] /\
    arraySpan a = Json.span input.
Proof.
  intros Hvalue Hcopy Helems Hname Hinput Hretained Hothers.
  destruct (calculateValue_copyBlock property valueObject copyPropertyArray h
              Hvalue Hcopy) as [synthesized [Hs Hc]].
  rewrite Helems, filter_app in Hs. cbn [filter] in Hs.
  assert (Hspec : Spec.isLoopSpec (OfObject o) = true).
  { unfold Spec.isLoopSpec. now rewrite Hname, Hinput. }
  rewrite Hspec in Hs.
  apply Synthesized_app_inv in Hs as [ps1 [ps2 [-> [Hs1 Hs2]]]].
  inversion Hs2 as [|r0 e es p ps2' Hp Hs2' Hr He Hps]; subst.
  destruct Hp as [o0 [name0 [input0 [Ho [Hname0 [Hinput0 ->]]]]]].
  injection Ho as <-. rewrite Hname in Hname0. rewrite Hinput in Hinput0.
  injection Hname0 as <-. injection Hinput0 as <-.
  eexists _, _, _,
    (newArrayValue (2 * List.length (filter Spec.isLoopSpec pre) + h)
       (Json.span input) [input]).
  split; [exact (value_fresh _ _ _ _ Hc)|].
  split; [|split; reflexivity].
  match goal with
  | |- getPropertyValue ?res _ = Some ?v =>
      change (Some v) with
        (value (newProperty (S (2 * List.length (filter Spec.isLoopSpec pre) + h))
                  (Json.span input) name (Some v)))
  end.
  apply getPropertyValue_only_match.
  - cbn [properties]. apply in_or_app. right. apply in_or_app. right. now left.
  - cbn [nameValue]. unfold sameKey. apply String.eqb_refl.
  - cbn [properties]. intros q Hq Hqkey.
    apply in_app_or in Hq as [Hq|Hq].
    + apply filter_In in Hq as [Hq Hnot].
      apply negb_true_iff in Hnot.
      now rewrite (Hretained q Hq Hnot) in Hqkey.
    + assert (Hno : forall r es ps,
                 Spec.Synthesized r (filter Spec.isLoopSpec es) ps ->
                 (forall x, In x es -> In x (pre ++ post)) ->
                 In q ps -> False).
      { intros r es ps Hsyn Hsub Hin.
        destruct (Synthesized_In _ _ _ q Hsyn Hin)
          as [e [r' [He [o' [name' [input' [-> [Hname' [_ ->]]]]]]]]].
        apply filter_In in He as [He _]. cbn [nameValue] in Hqkey.
        now rewrite (Hothers o' name' (Hsub _ He) Hname') in Hqkey. }
      apply in_app_or in Hq as [Hq|[Hq|Hq]].
      * destruct (Hno _ _ _ Hs1 (fun x Hx => in_or_app _ _ _ (or_introl Hx)) Hq).
      * now symmetry.
      * destruct (Hno _ _ _ Hs2' (fun x Hx => in_or_app _ _ _ (or_intror Hx)) Hq).
Qed.

Lemma expanded_value_lookup_loop_variable_witness :
  exists (result : ObjectValue) d' h' (a : ArrayValue),
    TopLevelVariableDefinition.value Samples.disksVariable 20
      = (Returned (Some (Some (OfObject result))), d', h') /\
    getPropertyValue result "disks" = Some (OfArray a) /\
    elements a = [Samples.inputX] /\
    arraySpan a = Language.mkSpan 43 3.
Proof.
  apply (expanded_value_lookup_loop_variable
           (TopLevelVariableDefinition._property Samples.disksVariable)
           Samples.disksValue Samples.copyArray 20 [] [] Samples.loopSpec
           (Samples.str 6 17 7 "disks") Samples.inputX
           eq_refl eq_refl eq_refl eq_refl eq_refl).
  - intros p [<-|[<-|[]]] Hkey; [discriminate Hkey | reflexivity].
  - intros o' name' [].
Defined.

End ExpansionFurther.

(** ** Hover text: usage of a function inside and outside its namespace *)

Section HoverFurther.

Import Json.
Import Hover.

Lemma toLowerCase_empty (s : string) : JsString.toLowerCase s = "" -> s = "".
Proof. destruct s; [reflexivity | discriminate]. Qed.

(** X10: the usage of a function with its namespace is its usage without
    one behind the namespace name and a dot, or that usage alone when the
    namespace name is empty; so the hover text of a user function shows,
    between the bold marks and behind the namespace name, the very line
    that the hover text of its namespace lists for it. *)
Theorem getUsage_with_namespace :
  (forall (namespace : UserFunctionNamespaceDefinition.t)
          (func : UserFunctionDefinition.t),
      UserFunctionInfo.getUsage (Some namespace) func
      = match unquotedValue
                (UserFunctionNamespaceDefinition.namespaceName namespace) with
        | EmptyString => UserFunctionInfo.getUsage None func
        | ns => ns ++ "." ++ UserFunctionInfo.getUsage None func
        end)
  /\ (forall (this : UserFunctionInfo.t),
         UserFunctionInfo.getHoverText this
         = "**"
             ++ match unquotedValue
                        (UserFunctionNamespaceDefinition.namespaceName
                           (UserFunctionInfo._namespace this)) with
                | EmptyString => ""
                | ns => ns ++ "."
                end
             ++ UserFunctionInfo.getUsage None (UserFunctionInfo._function this)
             ++ "** User-defined function").
Proof.
  assert (Hns : forall namespace func,
             UserFunctionInfo.getUsage (Some namespace) func
             = match unquotedValue
                       (UserFunctionNamespaceDefinition.namespaceName namespace) with
               | EmptyString => ""
               | ns => ns ++ "."
               end ++ UserFunctionInfo.getUsage None func).
  { intros namespace func. unfold UserFunctionInfo.getUsage.
    destruct (unquotedValue _); reflexivity. }
  split.
  - intros namespace func. rewrite Hns.
    destruct (unquotedValue _) as [|c ns]; [reflexivity|].
    now rewrite append_assoc.
  - intros this. unfold UserFunctionInfo.getHoverText. rewrite Hns.
    now rewrite append_assoc.
Qed.

(** X11: the letter case of a declared type does not show: two parameters
    of the same name whose string-typed types differ by letter case only
    are rendered alike. *)
Theorem getParamUsage_ignores_type_case (name ty1 ty2 : StringValue) :
  sameKey (unquotedValue ty1) (unquotedValue ty2) = true ->
  UserFunctionInfo.getParamUsage
    (UserFunctionParameterDefinition.mk name (Some (OfString ty1)))
  = UserFunctionInfo.getParamUsage
      (UserFunctionParameterDefinition.mk name (Some (OfString ty2))).
Proof.
  unfold sameKey. intros Hsame. apply String.eqb_eq in Hsame.
  rewrite !getParamUsage_nonEmpty. unfold Spec.paramUsageNonEmpty.
  cbn [UserFunctionParameterDefinition.type UserFunctionParameterDefinition.name].
  rewrite <- Hsame.
  destruct (unquotedValue ty1) as [|c1 s1] eqn:H1;
    destruct (unquotedValue ty2) as [|c2 s2] eqn:H2; try reflexivity.
  - symmetry in Hsame. apply toLowerCase_empty in Hsame. discriminate Hsame.
  - apply toLowerCase_empty in Hsame. discriminate Hsame.
Qed.

Lemma getParamUsage_ignores_type_case_witness :
  UserFunctionInfo.getParamUsage
    (UserFunctionParameterDefinition.mk (Samples.str 2 0 0 "b")
       (Some (OfString (Samples.str 3 0 0 "String"))))
  = UserFunctionInfo.getParamUsage
      (UserFunctionParameterDefinition.mk (Samples.str 2 0 0 "b")
         (Some (OfString (Samples.str 3 0 0 "STRING")))).
Proof.
  apply (getParamUsage_ignores_type_case (Samples.str 2 0 0 "b")
           (Samples.str 3 0 0 "String") (Samples.str 3 0 0 "STRING")).
  reflexivity.
Defined.

End HoverFurther.

(** ** Starting the language server: path and command line *)

Section ServerStart.

Import startArmLanguageServer.

(** X12: when the path of the server is found, it is a path that was
    looked up: without the setting, the DLL in the shipped folder, both of
    which exist; with the setting, the configured path, which exists, or,
    when that is a directory, the DLL inside it, which is then not looked
    up itself. *)
Theorem serverDllPath_returned (host : Host) (path : string) :
  serverDllPath host = Returned path ->
  ((languageServerPath host = None \/ languageServerPath host = Some "") /\
   path = join host (asAbsolutePath host (languageServerFolderName host))
            languageServerDllName /\
   existsSync host (asAbsolutePath host (languageServerFolderName host)) = true /\
   existsSync host path = true)
  \/
  (exists configured : string,
      languageServerPath host = Some configured /\
      configured <> "" /\
      existsSync host configured = true /\
      path = if isDirectory host configured
             then join host configured languageServerDllName
             else configured).
Proof.
  unfold serverDllPath.
  assert (Hshipped :
            forall setting,
              (languageServerPath host = None \/ languageServerPath host = Some "") ->
              (if negb (existsSync host
                          (asAbsolutePath host (languageServerFolderName host)))
                  || negb (existsSync host
                             (join host
                                (asAbsolutePath host (languageServerFolderName host))
                                languageServerDllName))
               then Thrown setting
               else Returned
                      (join host
                         (asAbsolutePath host (languageServerFolderName host))
                         languageServerDllName)) = Returned path ->
              ((languageServerPath host = None \/ languageServerPath host = Some "") /\
               path = join host (asAbsolutePath host (languageServerFolderName host))
                        languageServerDllName /\
               existsSync host
                 (asAbsolutePath host (languageServerFolderName host)) = true /\
               existsSync host path = true)).
  { intros setting Hset.
    destruct (existsSync host (asAbsolutePath host _)) eqn:Hfolder;
      [|discriminate].
    destruct (existsSync host (join host _ _)) eqn:Hdll; [|discriminate].
    cbn. intros [= <-]. auto. }
  destruct (languageServerPath host) as [configured|] eqn:Hsetting.
  - destruct (String.eqb_spec configured "") as [->|Hne].
    + intros H. left. apply (Hshipped _ (or_intror eq_refl) H).
    + destruct (existsSync host configured) eqn:Hexists; [|discriminate].
      cbn [negb]. intros H. right. exists configured.
      repeat split; try assumption.
      destruct (isDirectory host configured); now injection H as <-.
  - intros H. left. apply (Hshipped _ (or_introl eq_refl) H).
Qed.

Lemma serverDllPath_returned_witness :
  ((languageServerPath Samples.shippedHost = None
    \/ languageServerPath Samples.shippedHost = Some "") /\
   "/ext/LanguageServerBin/Microsoft.ArmLanguageServer.dll"
     = join Samples.shippedHost
         (asAbsolutePath Samples.shippedHost
            (languageServerFolderName Samples.shippedHost))
         languageServerDllName /\
   existsSync Samples.shippedHost
     (asAbsolutePath Samples.shippedHost
        (languageServerFolderName Samples.shippedHost)) = true /\
   existsSync Samples.shippedHost
     "/ext/LanguageServerBin/Microsoft.ArmLanguageServer.dll" = true)
  \/
  (exists configured : string,
      languageServerPath Samples.shippedHost = Some configured /\
      configured <> "" /\
      existsSync Samples.shippedHost configured = true /\
      "/ext/LanguageServerBin/Microsoft.ArmLanguageServer.dll"
        = if isDirectory Samples.shippedHost configured
          then join Samples.shippedHost configured languageServerDllName
          else configured).
Proof.
  exact (serverDllPath_returned Samples.shippedHost
           "/ext/LanguageServerBin/Microsoft.ArmLanguageServer.dll" eq_refl).
Defined.

(** X13: the search for the server fails in two ways only, each with its
    own message: without the setting, when the shipped folder or the DLL
    in it does not exist, with the advice to reinstall; with the setting,
    when the configured path does not exist, with the advice to verify the
    setting. *)
Theorem serverDllPath_thrown (host : Host) (e : Exn) :
  serverDllPath host = Thrown e ->
  ((languageServerPath host = None \/ languageServerPath host = Some "") /\
   (existsSync host (asAbsolutePath host (languageServerFolderName host)) = false
    \/ existsSync host
         (join host (asAbsolutePath host (languageServerFolderName host))
            languageServerDllName) = false) /\
   e = "Couldn't find the ARM language server at "
         ++ join host (asAbsolutePath host (languageServerFolderName host))
              languageServerDllName
         ++ ", you may need to reinstall the extension.")
  \/
  (exists configured : string,
      languageServerPath host = Some configured /\
      configured <> "" /\
      existsSync host configured = false /\
      e = "Couldn't find the ARM language server at " ++ configured
            ++ ".  Please verify your 'armTools.languageServer.path' setting.").
Proof.
  unfold serverDllPath.
  assert (Hshipped :
            forall path : string,
              (if negb (existsSync host
                          (asAbsolutePath host (languageServerFolderName host)))
                  || negb (existsSync host
                             (join host
                                (asAbsolutePath host (languageServerFolderName host))
                                languageServerDllName))
               then Thrown
                      ("Couldn't find the ARM language server at "
                         ++ join host
                              (asAbsolutePath host (languageServerFolderName host))
                              languageServerDllName
                         ++ ", you may need to reinstall the extension.")
               else Returned path) = Thrown e ->
              (existsSync host
                 (asAbsolutePath host (languageServerFolderName host)) = false
               \/ existsSync host
                    (join host (asAbsolutePath host (languageServerFolderName host))
                       languageServerDllName) = false) /\
              e = "Couldn't find the ARM language server at "
                    ++ join host
                         (asAbsolutePath host (languageServerFolderName host))
                         languageServerDllName
                    ++ ", you may need to reinstall the extension.").
  { intros path.
    destruct (existsSync host (asAbsolutePath host _)) eqn:Hfolder.
    - destruct (existsSync host (join host _ _)) eqn:Hdll; [discriminate|].
      cbn. intros [= <-]. auto.
    - cbn. intros [= <-]. auto. }
  destruct (languageServerPath host) as [configured|] eqn:Hsetting.
  - destruct (String.eqb_spec configured "") as [->|Hne].
    + intros H. left. split; [now right | exact (Hshipped _ H)].
    + destruct (existsSync host configured) eqn:Hexists.
      * cbn [negb]. destruct (isDirectory host configured); discriminate.
      * cbn [negb]. intros [= <-]. right. exists configured. auto.
  - intros H. left. split; [now left | exact (Hshipped _ H)].
Qed.

Lemma serverDllPath_thrown_witness :
  exists configured : string,
    languageServerPath Samples.missingHost = Some configured /\
    configured <> "" /\
    existsSync Samples.missingHost configured = false /\
    "Couldn't find the ARM language server at /nowhere/server.dll.  Please verify your 'armTools.languageServer.path' setting."
      = "Couldn't find the ARM language server at " ++ configured
          ++ ".  Please verify your 'armTools.languageServer.path' setting.".
Proof.
  destruct (serverDllPath_thrown Samples.missingHost
              "Couldn't find the ARM language server at /nowhere/server.dll.  Please verify your 'armTools.languageServer.path' setting."
              eq_refl) as [[[Hnone|Hempty] _]|H].
  - discriminate Hnone.
  - discriminate Hempty.
  - exact H.
Defined.

(** X14: when the server options are built, [run] and [debug] are the same
    command: [dotnet.exe] on [win32] and [dotnet] elsewhere, run in a
    shell, with the path of the server, [--logLevel] and the trace level
    as its first three arguments, followed by [--wait-for-debugger] when
    that setting is on and then by [--verbose-diagnostics] when the
    extension asks for a completion diagnostic, and by nothing else. *)
Theorem serverOptions_command_line (host : Host) (options : ServerOptions) :
  serverOptions host = Returned options ->
  run options = debug options
  /\ shell (run options) = true
  /\ command (run options)
     = (if String.eqb (platform host) "win32" then "dotnet.exe" else "dotnet")
  /\ exists path : string,
       serverDllPath host = Returned path /\
       args (run options)
       = ([path; "--logLevel"; traceLevel host]
            ++ (if waitForDebugger host then ["--wait-for-debugger"] else [])
            ++ (if addCompletionDiagnostic host then ["--verbose-diagnostics"]
                else []))%list
       /\ 3 <= List.length (args (run options)) <= 5.
Proof.
  unfold serverOptions. destruct (serverDllPath host) as [path|e]; [|discriminate].
  intros [= <-]. cbn [run debug shell command args].
  repeat split. exists path. split; [reflexivity|].
  unfold commonArgs.
  destruct (waitForDebugger host), (addCompletionDiagnostic host);
    cbn; repeat split; lia.
Qed.

Lemma serverOptions_command_line_witness :
  exists path : string,
    serverDllPath Samples.folderHost = Returned path /\
    [ "/ext/LanguageServerBin/Microsoft.ArmLanguageServer.dll"; "--logLevel";
      "Warning"; "--verbose-diagnostics" ]
    = ([path; "--logLevel"; traceLevel Samples.folderHost]
         ++ (if waitForDebugger Samples.folderHost
             then ["--wait-for-debugger"] else [])
         ++ (if addCompletionDiagnostic Samples.folderHost
             then ["--verbose-diagnostics"] else []))%list
    /\ 3 <= 4 <= 5.
Proof.
  exact (proj2 (proj2 (proj2
    (serverOptions_command_line Samples.folderHost
       {| run := {| command := "dotnet.exe";
                    args := [ "/ext/LanguageServerBin/Microsoft.ArmLanguageServer.dll";
                              "--logLevel"; "Warning"; "--verbose-diagnostics" ];
                    shell := true |};
          debug := {| command := "dotnet.exe";
                      args := [ "/ext/LanguageServerBin/Microsoft.ArmLanguageServer.dll";
                                "--logLevel"; "Warning"; "--verbose-diagnostics" ];
                      shell := true |} |}
       eq_refl)))).
Defined.

End ServerStart.
